(** * DrivoRent: booking / credit ledger, reservations page, image upload
      workflow and owner wizard, embedded from the TypeScript sources.

    Conventions of the embedding.
    - A JavaScript [number] is an exact rational ([Q]).  The amounts the
      program handles are whole numbers of pesos and such numbers times
      [0.9]; rounding of IEEE doubles is not modelled, nor are [NaN] and the
      infinities.  Equality of numbers is [Qeq] (written [==]).
    - Strings are [string] (UTF-8 bytes); string-literal union types and
      enums are inductive types.
    - The program never writes into an existing object: every update is a
      copy ([{...b, status}], [bookings.map], [[...bookings, x]]).  Object
      identity is therefore unobservable and objects are modelled as values.
    - [Date.now()] is an input of the handlers that read the clock. *)

From Corelib Require Import PrimFloat.
From Stdlib Require Import ZArith QArith Qminmax List String Ascii Bool Lia Lqa.
From Stdlib Require Import DecimalString.
From Stdlib Require DecimalPos DecimalZ.
Import ListNotations.

Local Open Scope string_scope.
Local Open Scope Q_scope.

Definition number := Q.

(** ** types.ts *)

Inductive VehicleCategory := LUXURY | ELECTRIC | SUV | STANDARD | MOTORCYCLE.

Inductive BookingStatus := PENDING | CONFIRMED | IN_PROGRESS | FINISHED | CANCELLED.

Inductive VerificationStatus := pending | verified | rejected.

Inductive Transmission := Automatica | Manual.

Inductive Fuel := Gasolina | Diesel | Electrico.

Definition BookingStatus_eqb (a b : BookingStatus) : bool :=
  match a, b with
  | PENDING, PENDING | CONFIRMED, CONFIRMED | IN_PROGRESS, IN_PROGRESS
  | FINISHED, FINISHED | CANCELLED, CANCELLED => true
  | _, _ => false
  end.

Definition VerificationStatus_eqb (a b : VerificationStatus) : bool :=
  match a, b with
  | pending, pending | verified, verified | rejected, rejected => true
  | _, _ => false
  end.

Module Features.
Record t := mk {
  transmission : Transmission;
  fuel : Fuel;
  passengers : number;
  hasAC : bool;
  hasGPS : bool;
  hasBluetooth : bool;
  hasReverseCamera : bool;
  hasAndroidAuto : bool;
  hasSunroof : bool;
  hasBabySeat : bool;
  is4x4 : bool
}.
End Features.

Module Discounts.
Record t := mk { weekly : number; biweekly : number; monthly : number }.
End Discounts.

Module Verification.
Record Documents := mkDocuments { ownershipCard : string; soat : string }.
Record Gallery := mkGallery {
  front : string; back : string; sideRight : string; sideLeft : string;
  interiorDashboard : string; interiorSeats : string
}.
Record t := mk { documents : Documents; gallery : Gallery }.
End Verification.

Module Vehicle.
Record t := mk {
  id : string;
  ownerId : string;
  make : string;
  model : string;
  year : number;
  category : VehicleCategory;
  pricePerDay : number;
  imageUrl : string;
  location : string;
  isAvailable : bool;
  verificationStatus : VerificationStatus;
  features : Features.t;
  discounts : option Discounts.t;
  verification : option Verification.t
}.

(** [{ ...v, isAvailable: a }] *)
Definition with_isAvailable (v : t) (a : bool) : t :=
  mk (id v) (ownerId v) (make v) (model v) (year v) (category v)
     (pricePerDay v) (imageUrl v) (location v) a (verificationStatus v)
     (features v) (discounts v) (verification v).
End Vehicle.

Module Review.
Record t := mk { rating : number; comment : string; createdAt : string }.
End Review.

Module Booking.
Record t := mk {
  id : string;
  vehicleId : string;
  renterId : string;
  startDate : string;
  endDate : string;
  totalPrice : number;
  status : BookingStatus;
  vehicleSnapshot : Vehicle.t;
  review : option Review.t
}.

(** [{ ...b, status }] *)
Definition with_status (b : t) (s : BookingStatus) : t :=
  mk (id b) (vehicleId b) (renterId b) (startDate b) (endDate b)
     (totalPrice b) s (vehicleSnapshot b) (review b).

(** [{ ...b, review: r }] *)
Definition with_review (b : t) (r : Review.t) : t :=
  mk (id b) (vehicleId b) (renterId b) (startDate b) (endDate b)
     (totalPrice b) (status b) (vehicleSnapshot b) (Some r).
End Booking.

Inductive Role := renter | owner.

Module User.
(** [UserType & { isVerified, email, phone }] as the top-level store holds
    it; [verificationDocs] (typed [any]) is written by the personal-info
    page only and read by none of the functions embedded here. *)
Record t := mk {
  id : string;
  name : string;
  cedula : string;
  dob : string;
  walletBalance : number;
  role : Role;
  isVerified : bool;
  email : string;
  phone : string
}.
End User.

(** ** The platform's clock and date formatting

    [Date.now()] is a number of milliseconds since the epoch, an integer.
    [new Date(ms).toISOString()] is embedded for every [ms] a running clock
    can show (the proleptic Gregorian calendar in UTC, years printed with four
    digits inside 0..9999 and as a signed six-digit year outside). *)

Module JsDate.
Local Open Scope Z_scope.

Definition digits (z : Z) : string :=
  NilZero.string_of_uint (N.to_uint (Z.to_N z)).

Fixpoint zeros (n : nat) : string :=
  match n with O => EmptyString | S k => String "0"%char (zeros k) end.

(** decimal digits of [z >= 0], left-padded with zeros to [width] *)
Definition pad (width : nat) (z : Z) : string :=
  let d := digits z in
  (zeros (width - String.length d) ++ d)%string.

(** template literal [`${n}`] of an integer-valued number *)
Definition toString (z : Z) : string :=
  NilZero.string_of_int (Z.to_int z).

(** days since 1970-01-01 to (year, month, day) *)
Definition civil (days : Z) : Z * Z * Z :=
  let z := days + 719468 in
  let era := z / 146097 in
  let doe := z - era * 146097 in
  let yoe := (doe - doe / 1460 + doe / 36524 - doe / 146096) / 365 in
  let doy := doe - (365 * yoe + yoe / 4 - yoe / 100) in
  let mp := (5 * doy + 2) / 153 in
  let d := doy - (153 * mp + 2) / 5 + 1 in
  let m := if mp <? 10 then mp + 3 else mp - 9 in
  let y := yoe + era * 400 + (if m <=? 2 then 1 else 0) in
  (y, m, d).

Definition yearString (y : Z) : string :=
  if (0 <=? y) && (y <=? 9999) then pad 4 y
  else ((if (y <? 0)%Z then "-" else "+") ++ pad 6 (Z.abs y))%string.

(** the part of [toISOString()] before the ['T'] *)
Definition isoDay (ms : Z) : string :=
  let '(y, m, d) := civil (ms / 86400000) in
  (yearString y ++ "-" ++ pad 2 m ++ "-" ++ pad 2 d)%string.

(** the part of [toISOString()] from the ['T'] on *)
Definition isoTime (ms : Z) : string :=
  let r := ms mod 86400000 in
  let hh := r / 3600000 in
  let mm := r / 60000 mod 60 in
  let ss := r / 1000 mod 60 in
  let sss := r mod 1000 in
  ("T" ++ pad 2 hh ++ ":" ++ pad 2 mm ++ ":" ++ pad 2 ss ++ "." ++ pad 3 sss ++ "Z")%string.

Definition toISOString (ms : Z) : string := (isoDay ms ++ isoTime ms)%string.

(** [new Date(ms).toISOString().split('T')[0]] *)
Definition toISODate (ms : Z) : string := isoDay ms.
End JsDate.

(** ** constants.ts *)

Module Constants.
Definition unsplash (photo : string) : string :=
  "https://images.unsplash.com/" ++ photo ++ "?auto=format&fit=crop&w=800&q=80".

Definition v1 : Vehicle.t :=
  Vehicle.mk "v1" "o1" "Tesla" "Model 3" 2023 ELECTRIC 450000
    (unsplash "photo-1536700503339-1e4b06520771") "Bogotá" true verified
    (Features.mk Automatica Electrico 5 true true true true true true true false)
    (Some (Discounts.mk 10 15 25)) None.

Definition v2 : Vehicle.t :=
  Vehicle.mk "v2" "o2" "Toyota" "Fortuner" 2022 SUV 380000
    (unsplash "photo-1519641471654-76ce0107ad1b") "Medellín" true verified
    (Features.mk Automatica Gasolina 7 true true true true true false false true)
    (Some (Discounts.mk 5 10 20)) None.

Definition v3 : Vehicle.t :=
  Vehicle.mk "v3" "o3" "BMW" "S1000RR" 2021 MOTORCYCLE 200000
    (unsplash "photo-1558981403-c5f9899a28bc") "Cali" true verified
    (Features.mk Manual Gasolina 2 false false false false false false false false)
    None None.

Definition v4 : Vehicle.t :=
  Vehicle.mk "v4" "o1" "Mazda" "3" 2020 STANDARD 180000
    (unsplash "photo-1549317661-bd32c8ce0db2") "Bogotá" true verified
    (Features.mk Automatica Gasolina 5 true true true true true true true false)
    (Some (Discounts.mk 10 15 30)) None.

Definition MOCK_VEHICLES : list Vehicle.t := [v1; v2; v3; v4].

Definition b1 : Booking.t :=
  Booking.mk "b1" "v2" "current" "2023-11-10" "2023-11-15" 1900000 CONFIRMED v2 None.

Definition b2 : Booking.t :=
  Booking.mk "b2" "v4" "current" "2023-12-01" "2023-12-05" 720000 PENDING v4 None.

Definition MOCK_BOOKINGS : list Booking.t := [b1; b2].

Definition CITIES : list string :=
  ["Bogotá"; "Medellín"; "Cali"; "Barranquilla"; "Cartagena"].
End Constants.

(** ** The top-level store ([App]) and its handlers *)

Module App.
Record State := mkState {
  vehicles : list Vehicle.t;
  bookings : list Booking.t;
  user : User.t;
  userCredits : number
}.

Definition init : State :=
  mkState Constants.MOCK_VEHICLES Constants.MOCK_BOOKINGS
    (User.mk "u1" "Juan Pérez" "1234567890" "1990-01-01" 2500000 renter false
       "juan@example.com" "3001234567")
    150000.

Definition setBookings (bs : list Booking.t) (s : State) : State :=
  mkState (vehicles s) bs (user s) (userCredits s).

Definition setVehicles (vs : list Vehicle.t) (s : State) : State :=
  mkState vs (bookings s) (user s) (userCredits s).

(** [setUserCredits(prev => f(prev))] *)
Definition setUserCredits (f : number -> number) (s : State) : State :=
  mkState (vehicles s) (bookings s) (user s) (f (userCredits s)).

Definition setUser (u : User.t) (s : State) : State :=
  mkState (vehicles s) (bookings s) u (userCredits s).

(** [now] is the value of [Date.now()] while the handler runs. *)
Definition newBooking (now : Z) (vehicle : Vehicle.t) (s : State) : Booking.t :=
  Booking.mk ("b" ++ JsDate.toString now)
    (Vehicle.id vehicle)
    (User.id (user s))
    (JsDate.toISODate now)
    (JsDate.toISODate (now + 86400000))
    (Vehicle.pricePerDay vehicle)
    CONFIRMED
    vehicle
    None.

Definition handleBook (now : Z) (vehicle : Vehicle.t) (creditDeduction : number)
    (s : State) : State :=
  let s1 := setBookings (bookings s ++ [newBooking now vehicle s]) s in
  if Qlt_le_dec 0 creditDeduction
  then setUserCredits (fun prev => Qmax 0 (prev - creditDeduction)) s1
  else s1.

Definition handleAddReview (now : Z) (id : string) (rating : number) (comment : string)
    (s : State) : State :=
  setBookings
    (map (fun b =>
            if Booking.id b =? id
            then Booking.with_review b (Review.mk rating comment (JsDate.toISOString now))
            else b)
         (bookings s))
    s.

Definition handleUpdateStatus (id : string) (status : BookingStatus) (s : State) : State :=
  setBookings
    (map (fun b => if Booking.id b =? id then Booking.with_status b status else b)
         (bookings s))
    s.

Definition handleCancelBooking (id : string) (s : State) : State :=
  let booking := find (fun b => Booking.id b =? id) (bookings s) in
  let s1 :=
    match booking with
    | Some b =>
        let refundAmount := Booking.totalPrice b * 0.9 in
        setUserCredits (fun prev => prev + refundAmount) s
    | None => s
    end in
  handleUpdateStatus id CANCELLED s1.

Definition handleAddVehicle (vehicle : Vehicle.t) (s : State) : State :=
  setVehicles (vehicles s ++ [vehicle]) s.

Definition handleToggleAvailability (id : string) (s : State) : State :=
  setVehicles
    (map (fun v =>
            if Vehicle.id v =? id
            then Vehicle.with_isAvailable v (negb (Vehicle.isAvailable v))
            else v)
         (vehicles s))
    s.

Definition handleUpdateUser (updatedUser : User.t) (s : State) : State :=
  setUser updatedUser s.
End App.

(** ** VehicleDetailPage: the payment split and the payment button *)

Module VehicleDetailPage.
(** [vehicles.find(v => v.id === vehicleId)] *)
Definition vehicle (vehicles : list Vehicle.t) (vehicleId : string) : option Vehicle.t :=
  find (fun v => Vehicle.id v =? vehicleId) vehicles.

Definition totalPrice (vehicle : Vehicle.t) : number := Vehicle.pricePerDay vehicle.

Definition creditDeduction (useCredits : bool) (userCredits totalPrice : number) : number :=
  if useCredits then Qmin userCredits totalPrice else 0.

Definition cardCharge (useCredits : bool) (userCredits totalPrice : number) : number :=
  totalPrice - creditDeduction useCredits userCredits totalPrice.

(** [handlePayment], at the moment its timer calls [onBook]; the page
    renders no payment button when the vehicle is not found. *)
Definition handlePayment (now : Z) (vehicleId : string) (useCredits : bool)
    (s : App.State) : App.State :=
  match vehicle (App.vehicles s) vehicleId with
  | None => s
  | Some v =>
      App.handleBook now v
        (creditDeduction useCredits (App.userCredits s) (totalPrice v)) s
  end.
End VehicleDetailPage.

(** ** ReservationsPage: local state, handlers, and what it renders *)

Module ReservationsPage.
Record Local := mkLocal {
  reviewModalOpen : bool;
  selectedBookingId : option string;
  rating : number;
  comment : string;
  showCancelConfirm : option string
}.

Definition initLocal : Local := mkLocal false None 0 "" None.

(** The page as mounted: the store, the component state, and the ids of
    the [setTimeout(() => handleOpenReview(id), 500)] calls still pending
    (equal delays fire in the order they were set). *)
Record World := mkWorld {
  app : App.State;
  local : Local;
  timers : list string
}.

Definition handleOpenReview (bookingId : string) (l : Local) : Local :=
  mkLocal true (Some bookingId) 0 "" (showCancelConfirm l).

Definition handleFinishRental (id : string) (w : World) : World :=
  mkWorld (App.handleUpdateStatus id FINISHED (app w)) (local w) (timers w ++ [id]).

(** a JavaScript string is truthy when it is not empty *)
Definition truthy (s : string) : bool := negb (s =? "").

Definition handleSubmitReview (now : Z) (w : World) : World :=
  let l := local w in
  match selectedBookingId l with
  | Some sel =>
      if truthy sel && (if Qlt_le_dec 0 (rating l) then true else false)
      then mkWorld (App.handleAddReview now sel (rating l) (comment l) (app w))
                   (mkLocal false (selectedBookingId l) (rating l) (comment l)
                            (showCancelConfirm l))
                   (timers w)
      else w
  | None => w
  end.

Definition handleCancelClick (id : string) (l : Local) : Local :=
  mkLocal (reviewModalOpen l) (selectedBookingId l) (rating l) (comment l) (Some id).

Definition confirmCancellation (id : string) (w : World) : World :=
  let l := local w in
  mkWorld (App.handleCancelBooking id (app w))
          (mkLocal (reviewModalOpen l) (selectedBookingId l) (rating l) (comment l) None)
          (timers w).

(** *** Conditions of the JSX: which controls a booking card shows *)

Definition cancelButtonShown (booking : Booking.t) : bool :=
  BookingStatus_eqb (Booking.status booking) PENDING
  || BookingStatus_eqb (Booking.status booking) CONFIRMED.

Definition cancelOverlayShown (l : Local) (booking : Booking.t) : bool :=
  match showCancelConfirm l with
  | Some id => id =? Booking.id booking
  | None => false
  end.

Definition finishButtonShown (booking : Booking.t) : bool :=
  BookingStatus_eqb (Booking.status booking) IN_PROGRESS.

Definition rateButtonShown (booking : Booking.t) : bool :=
  BookingStatus_eqb (Booking.status booking) FINISHED
  && match Booking.review booking with Some _ => false | None => true end.

(** *** User and timer events on the mounted page

    Cards are addressed by their position in [bookings].  An event whose
    control is not rendered cannot happen ([None]).  The stacking of the
    overlays is not modelled: a control that is rendered is taken to be
    clickable. *)

Inductive Event :=
| ClickCancel (i : nat)
| DismissCancel (i : nat)
| ConfirmCancel (i : nat)
| ClickFinish (i : nat)
| TimerFires
| ClickRate (i : nat)
| ClickStar (star : nat)
| TypeComment (text : string)
| SubmitReview (now : Z)
| CloseReview.

Definition setLocal (l : Local) (w : World) : World := mkWorld (app w) l (timers w).

Definition card (w : World) (i : nat) : option Booking.t :=
  nth_error (App.bookings (app w)) i.

Definition step (e : Event) (w : World) : option World :=
  let l := local w in
  match e with
  | ClickCancel i =>
      match card w i with
      | Some b =>
          if cancelButtonShown b
          then Some (setLocal (handleCancelClick (Booking.id b) l) w)
          else None
      | None => None
      end
  | DismissCancel i =>
      match card w i with
      | Some b =>
          if cancelOverlayShown l b
          then Some (setLocal (mkLocal (reviewModalOpen l) (selectedBookingId l)
                                       (rating l) (comment l) None) w)
          else None
      | None => None
      end
  | ConfirmCancel i =>
      match card w i with
      | Some b =>
          if cancelOverlayShown l b
          then Some (confirmCancellation (Booking.id b) w)
          else None
      | None => None
      end
  | ClickFinish i =>
      match card w i with
      | Some b =>
          if finishButtonShown b
          then Some (handleFinishRental (Booking.id b) w)
          else None
      | None => None
      end
  | TimerFires =>
      match timers w with
      | id :: rest => Some (mkWorld (app w) (handleOpenReview id l) rest)
      | [] => None
      end
  | ClickRate i =>
      match card w i with
      | Some b =>
          if rateButtonShown b
          then Some (setLocal (handleOpenReview (Booking.id b) l) w)
          else None
      | None => None
      end
  | ClickStar star =>
      if reviewModalOpen l && (1 <=? star)%nat && (star <=? 5)%nat
      then Some (setLocal (mkLocal (reviewModalOpen l) (selectedBookingId l)
                                   (inject_Z (Z.of_nat star)) (comment l)
                                   (showCancelConfirm l)) w)
      else None
  | TypeComment text =>
      if reviewModalOpen l
      then Some (setLocal (mkLocal (reviewModalOpen l) (selectedBookingId l)
                                   (rating l) text (showCancelConfirm l)) w)
      else None
  | SubmitReview now =>
      (* the button is [disabled={rating === 0}] *)
      if reviewModalOpen l && negb (Qeq_bool (rating l) 0)
      then Some (handleSubmitReview now w)
      else None
  | CloseReview =>
      if reviewModalOpen l
      then Some (setLocal (mkLocal false (selectedBookingId l) (rating l) (comment l)
                                   (showCancelConfirm l)) w)
      else None
  end.

(** The page freshly mounted on a store. *)
Definition mount (s : App.State) : World := mkWorld s initLocal [].
End ReservationsPage.

(** ** A session: the reservations page, and bookings made on the detail page

    The detail page is another route: while it is shown the reservations page
    is unmounted, so its component state and its pending timers are gone
    when the user comes back. *)

Module Session.
Inductive Event :=
| OnReservations (e : ReservationsPage.Event)
| Remount
| Pay (now : Z) (vehicleId : string) (useCredits : bool).

Definition step (e : Event) (w : ReservationsPage.World) : option ReservationsPage.World :=
  match e with
  | OnReservations e' => ReservationsPage.step e' w
  | Remount => Some (ReservationsPage.mount (ReservationsPage.app w))
  | Pay now vehicleId useCredits =>
      match VehicleDetailPage.vehicle (App.vehicles (ReservationsPage.app w)) vehicleId with
      | Some _ =>
          Some (ReservationsPage.mount
                  (VehicleDetailPage.handlePayment now vehicleId useCredits
                     (ReservationsPage.app w)))
      | None => None
      end
  end.

Fixpoint run (es : list Event) (w : ReservationsPage.World) : option ReservationsPage.World :=
  match es with
  | [] => Some w
  | e :: rest =>
      match step e w with
      | Some w' => run rest w'
      | None => None
      end
  end.
End Session.

(** ** Operations of the store, as data *)

Module Ledger.
Inductive Op :=
| Book (now : Z) (vehicle : Vehicle.t) (creditDeduction : number)
| Cancel (id : string)
| UpdateStatus (id : string) (status : BookingStatus)
| AddReview (now : Z) (id : string) (rating : number) (comment : string)
| AddVehicle (vehicle : Vehicle.t)
| ToggleAvailability (id : string).

Definition apply (o : Op) (s : App.State) : App.State :=
  match o with
  | Book now vehicle creditDeduction => App.handleBook now vehicle creditDeduction s
  | Cancel id => App.handleCancelBooking id s
  | UpdateStatus id status => App.handleUpdateStatus id status s
  | AddReview now id rating comment => App.handleAddReview now id rating comment s
  | AddVehicle vehicle => App.handleAddVehicle vehicle s
  | ToggleAvailability id => App.handleToggleAvailability id s
  end.

Definition run (os : list Op) (s : App.State) : App.State :=
  fold_left (fun acc o => apply o acc) os s.
End Ledger.

(** ** JSON values, as [JSON.parse] returns them *)

#[warnings="-register-all"]
Inductive Json :=
| JNull
| JBool (b : bool)
| JNumber (q : Q)
| JString (s : string)
| JArray (items : list Json)
| JObject (props : list (string * Json)).

Module Js.
(** Result of a property read [v.key]: a value, [undefined], or a
    [TypeError] (reading a property of [null]). *)
Inductive Get := Value (v : Json) | Undefined | TypeError.

Fixpoint lookup (key : string) (props : list (string * Json)) : option Json :=
  match props with
  | [] => None
  | (k, v) :: rest => if k =? key then Some v else lookup key rest
  end.

(** [v.key] for a key that no built-in prototype defines *)
Definition get (v : Json) (key : string) : Get :=
  match v with
  | JNull => TypeError
  | JObject props =>
      match lookup key props with Some x => Value x | None => Undefined end
  | _ => Undefined
  end.

Definition truthy (v : Json) : bool :=
  match v with
  | JNull => false
  | JBool b => b
  | JNumber q => negb (Qeq_bool q 0)
  | JString s => negb (s =? "")
  | JArray _ | JObject _ => true
  end.

Definition truthyGet (g : Get) : bool :=
  match g with Value v => truthy v | _ => false end.
End Js.

(** ** validateImageWithGemini *)

Module Gemini.
Record Request := mkRequest {
  model : string;
  mimeType : string;
  data : string;
  text : string;
  responseMimeType : string
}.

(** What the outside world does during one validation: the environment
    variable, whether [new GoogleGenAI(...)] returns a client ([false]: it
    throws), the outcome of [ai.models.generateContent] ([None]: the call
    throws or rejects; [Some t]: it resolves with [response.text = t],
    [None] there being [undefined]), and the platform's [JSON.parse]
    ([None]: it throws). *)
Record Env := mkEnv {
  API_KEY : option string;
  newClient : bool;
  generateContent : Request -> option (option string);
  JSON_parse : string -> option Json
}.

Inductive Effect :=
| ConsoleWarn (msg : string)
| ConsoleError (msg : string)
| GenerateContent (req : Request).

Fixpoint stripPrefix (p s : string) : option string :=
  match p, s with
  | EmptyString, _ => Some s
  | String a p', String b s' => if Ascii.eqb a b then stripPrefix p' s' else None
  | String _ _, EmptyString => None
  end.

(** the rightmost way to write [r = g1 ++ ";base64," ++ g2] with [g2]
    not empty *)
Fixpoint lastSplit (r : string) : option (string * string) :=
  match r with
  | EmptyString => None
  | String c r' =>
      match lastSplit r' with
      | Some (g1, g2) => Some (String c g1, g2)
      | None =>
          match stripPrefix ";base64," r with
          | Some g2 => if g2 =? "" then None else Some ("", g2)
          | None => None
          end
      end
  end.

(** [.] of a regular expression does not match a line terminator: LF, CR,
    U+2028, U+2029 (E2 80 A8 and E2 80 A9 in UTF-8) *)
Fixpoint hasLineTerminator (s : string) : bool :=
  match s with
  | EmptyString => false
  | String c rest =>
      Ascii.eqb c "010"%char || Ascii.eqb c "013"%char
      || match stripPrefix (String "226"%char (String "128"%char EmptyString)) s with
         | Some (String d _) => Ascii.eqb d "168"%char || Ascii.eqb d "169"%char
         | _ => false
         end
      || hasLineTerminator rest
  end.

(** [base64Image.match(/^data:(.+);base64,(.+)$/)]: the two groups *)
Definition matchDataUrl (base64Image : string) : option (string * string) :=
  match stripPrefix "data:" base64Image with
  | Some r =>
      if hasLineTerminator r then None
      else match lastSplit r with
           | Some (g1, g2) => if g1 =? "" then None else Some (g1, g2)
           | None => None
           end
  | None => None
  end.

(** the double-quote character *)
Definition dq : string := String "034"%char EmptyString.

Definition returnJson : string :=
  " Return JSON: { " ++ dq ++ "isValid" ++ dq ++ ": boolean, "
    ++ dq ++ "reason" ++ dq ++ ": string }".

Definition promptText (type : string) : string :=
  if type =? "vehicle" then
    "Analyze this image. Is it a real vehicle (car, motorcycle, suv)?" ++ returnJson
  else if type =? "document" then
    "Analyze this image. Is it a legible document?" ++ returnJson
  else if type =? "face" then
    "Analyze this image. Is it a clear human face?" ++ returnJson
  else "".

Definition valid : Json := JObject [("isValid", JBool true)].

Definition invalid (reason : string) : Json :=
  JObject [("isValid", JBool false); ("reason", JString reason)].

Definition apiKeySet (env : Env) : bool :=
  match API_KEY env with Some k => negb (k =? "") | None => false end.

(** The value the promise resolves with, and what was done on the way. *)
Definition validateImageWithGemini (env : Env) (base64Image type : string)
    : Json * list Effect :=
  if negb (apiKeySet env) then
    (valid, [ConsoleWarn "API_KEY not set, skipping AI validation"])
  else if negb (newClient env) then
    (valid, [ConsoleError "AI Validation Error"])
  else
    match matchDataUrl base64Image with
    | None => (invalid "Invalid image format", [])
    | Some (mimeType, data) =>
        let req := mkRequest "gemini-2.5-flash-image" mimeType data (promptText type)
                             "application/json" in
        match generateContent env req with
        | None => (valid, [GenerateContent req; ConsoleError "AI Validation Error"])
        | Some response_text =>
            match response_text with
            | None => (invalid "No response from AI", [GenerateContent req])
            | Some text =>
                if text =? "" then (invalid "No response from AI", [GenerateContent req])
                else match JSON_parse env text with
                     | Some v => (v, [GenerateContent req])
                     | None =>
                         (valid, [GenerateContent req; ConsoleError "AI Validation Error"])
                     end
            end
        end
    end.
End Gemini.

(** ** ImageUploadBox: the upload handler

    The handler is embedded as the list of actions it performs, in order;
    the component state after it is obtained by replaying the [set...]
    actions.  The upload progress counter, driven by a 200 ms interval
    timer, is left out: no status depends on it. *)

Module ImageUploadBox.
Inductive Status := idle | uploading | analyzing | success | error.

Inductive ValidationType := vehicle | document | face.

Definition typeTag (t : ValidationType) : string :=
  match t with vehicle => "vehicle" | document => "document" | face => "face" end.

(** a [File] of the browser: size in bytes and MIME type *)
Record File := mkFile { size : Z; type : string }.

(** The platform during one upload: the validation environment, the
    outcome of [FileReader.readAsDataURL] ([None]: [onerror]) and
    [URL.createObjectURL]; the latter and the parent's [onImageSelect] are
    taken not to throw. *)
Record Env := mkEnv {
  gemini : Gemini.Env;
  readAsDataURL : File -> option string;
  createObjectURL : File -> string
}.

Record Component := mkComponent {
  status : Status;
  errorMsg : option Json
}.

Definition initComponent : Component := mkComponent idle None.

Inductive Effect :=
| SetErrorMsg (msg : option Json)
| SetStatus (s : Status)
| ReadFile (file : File)
| Validation (e : Gemini.Effect)
| OnImageSelect (url : string)
| ConsoleError.

Definition maxSize : Z := 5 * 1024 * 1024.

Definition acceptedTypes : list string := ["image/jpeg"; "image/png"; "image/webp"].

(** [Array.prototype.includes] on strings *)
Definition includes (xs : list string) (x : string) : bool :=
  existsb (fun y => y =? x) xs.

(** the [catch] block of the handler *)
Definition caught : list Effect :=
  [ConsoleError; SetStatus error; SetErrorMsg (Some (JString "Error al procesar"))].

(** [aiResult.reason || "Imagen no válida"] *)
Definition reasonOrDefault (aiResult : Json) : Json :=
  match Js.get aiResult "reason" with
  | Js.Value v => if Js.truthy v then v else JString "Imagen no válida"
  | _ => JString "Imagen no válida"
  end.

Definition accepted (env : Env) (file : File) : list Effect :=
  [SetStatus success; OnImageSelect (createObjectURL env file)].

(** [file] is [e.target.files?.[0]] *)
Definition handleFileChange (env : Env) (validationType : option ValidationType)
    (file : option File) : list Effect :=
  match file with
  | None => []
  | Some file =>
      if (maxSize <? size file)%Z then
        [SetErrorMsg (Some (JString "El archivo excede 5MB")); SetStatus error]
      else if negb (includes acceptedTypes (type file)) then
        [SetErrorMsg (Some (JString "Solo formatos JPG o PNG")); SetStatus error]
      else
        [SetErrorMsg None; SetStatus uploading; ReadFile file] ++
        match readAsDataURL env file with
        | None => caught
        | Some base64 =>
            SetStatus analyzing ::
            match validationType with
            | Some vt =>
                let '(aiResult, done) :=
                  Gemini.validateImageWithGemini (gemini env) base64 (typeTag vt) in
                map Validation done ++
                match Js.get aiResult "isValid" with
                | Js.TypeError => caught
                | g =>
                    if negb (Js.truthyGet g)
                    then [SetStatus error; SetErrorMsg (Some (reasonOrDefault aiResult))]
                    else accepted env file
                end
            | None => accepted env file
            end
        end
  end.

Definition perform (c : Component) (e : Effect) : Component :=
  match e with
  | SetErrorMsg m => mkComponent (status c) m
  | SetStatus s => mkComponent s (errorMsg c)
  | _ => c
  end.

Definition replay (es : list Effect) (c : Component) : Component :=
  fold_left perform es c.

(** the statuses the handler passes through, in order *)
Fixpoint statuses (es : list Effect) : list Status :=
  match es with
  | [] => []
  | SetStatus s :: rest => s :: statuses rest
  | _ :: rest => statuses rest
  end.

(** the classification requests sent *)
Fixpoint calls (es : list Effect) : list Gemini.Request :=
  match es with
  | [] => []
  | Validation (Gemini.GenerateContent req) :: rest => req :: calls rest
  | _ :: rest => calls rest
  end.
End ImageUploadBox.

(** ** Listings and the owner wizard *)

Module Listing.
(** [v.verificationStatus === 'verified' && v.isAvailable] *)
Definition visible (v : Vehicle.t) : bool :=
  VerificationStatus_eqb (Vehicle.verificationStatus v) verified && Vehicle.isAvailable v.


(** [SearchPage] *)
Definition searchableVehicles (vehicles : list Vehicle.t) : list Vehicle.t :=
  filter visible vehicles.
End Listing.

Module MyVehiclesPage.
(** [Partial<Vehicle>]: an object on which any property may be absent *)
Record PartialVehicle := mkPartial {
  id : option string;
  ownerId : option string;
  make : option string;
  model : option string;
  year : option number;
  category : option VehicleCategory;
  pricePerDay : option number;
  imageUrl : option string;
  location : option string;
  isAvailable : option bool;
  verificationStatus : option VerificationStatus;
  features : option Features.t;
  discounts : option Discounts.t;
  verification : option Verification.t
}.

Definition defaultFeatures : Features.t :=
  Features.mk Automatica Gasolina 5 true true true false false false false false.

(** the initial (and, after a submit, reset) value of [newCarData] *)
Definition initialCarData : PartialVehicle :=
  mkPartial None None None None None None None None None None None
            (Some defaultFeatures) None None.

(** [s || fallback] on an optional string *)
Definition orElse (s : option string) (fallback : string) : string :=
  match s with
  | Some x => if x =? "" then fallback else x
  | None => fallback
  end.

Definition defaultImage : string :=
  "https://images.unsplash.com/photo-1533473359331-0135ef1b58bf?auto=format&fit=crop&w=800&q=80".

(** the object [handleSubmitVehicle] builds and hands to [onAddVehicle] *)
Definition submitted (now : Z) (newCarData : PartialVehicle) : PartialVehicle :=
  mkPartial (Some ("v" ++ JsDate.toString now))
            (Some "current")
            (make newCarData) (model newCarData) (year newCarData)
            (category newCarData) (pricePerDay newCarData)
            (Some (orElse (imageUrl newCarData) defaultImage))
            (Some (orElse (location newCarData) "Bogotá"))
            (Some true)
            (Some verified)
            (features newCarData) (discounts newCarData) (verification newCarData).

(** The cast [as Vehicle]: the object seen at its declared type, which it
    has when the wizard's basic-information step was filled in. *)
Definition asVehicle (d : PartialVehicle) : option Vehicle.t :=
  match id d, ownerId d, make d, model d, year d, category d, pricePerDay d with
  | Some i, Some o, Some mk, Some md, Some y, Some c, Some p =>
      match imageUrl d, location d, isAvailable d, verificationStatus d, features d with
      | Some im, Some lo, Some av, Some vs, Some fe =>
          Some (Vehicle.mk i o mk md y c p im lo av vs fe (discounts d) (verification d))
      | _, _, _, _, _ => None
      end
  | _, _, _, _, _, _, _ => None
  end.

(** [handleSubmitVehicle] on the store ([None]: the object does not have
    the type [Vehicle], a case outside the typed model) *)
Definition handleSubmitVehicle (now : Z) (newCarData : PartialVehicle) (s : App.State)
    : option App.State :=
  match asVehicle (submitted now newCarData) with
  | Some v => Some (App.handleAddVehicle v s)
  | None => None
  end.

(** the visibility test of the listings, on the object as built *)
Definition visibleObject (d : PartialVehicle) : bool :=
  match verificationStatus d, isAvailable d with
  | Some vs, Some av => VerificationStatus_eqb vs verified && av
  | _, _ => false
  end.
End MyVehiclesPage.


(** ** Vocabulary of the properties *)






Definition distinctIds (s : App.State) : Prop :=
  NoDup (map Booking.id (App.bookings s)).



(** [f] applied to the bookings whose id is [id] *)
Definition onId (f : Booking.t -> Booking.t) (id : string) (b : Booking.t) : Booking.t :=
  if Booking.id b =? id then f b else b.

(** the request [validateImageWithGemini] sends for an image and a type tag *)
Definition requestFor (mimeType data type : string) : Gemini.Request :=
  Gemini.mkRequest "gemini-2.5-flash-image" mimeType data (Gemini.promptText type)
                   "application/json".

(** Infrastructure failures of one validation: no API key, a client that
    cannot be made, a classification call that throws, a response text that
    [JSON.parse] rejects. *)
Inductive InfraFailure (env : Gemini.Env) (base64Image type : string) : Prop :=
| KeyAbsent :
    Gemini.apiKeySet env = false -> InfraFailure env base64Image type
| ClientThrows :
    Gemini.apiKeySet env = true -> Gemini.newClient env = false ->
    InfraFailure env base64Image type
| CallThrows (mimeType data : string) :
    Gemini.apiKeySet env = true -> Gemini.newClient env = true ->
    Gemini.matchDataUrl base64Image = Some (mimeType, data) ->
    Gemini.generateContent env (requestFor mimeType data type) = None ->
    InfraFailure env base64Image type
| Unparseable (mimeType data text : string) :
    Gemini.apiKeySet env = true -> Gemini.newClient env = true ->
    Gemini.matchDataUrl base64Image = Some (mimeType, data) ->
    Gemini.generateContent env (requestFor mimeType data type) = Some (Some text) ->
    text <> "" ->
    Gemini.JSON_parse env text = None ->
    InfraFailure env base64Image type.

(** the classifier answers, but the response carries no text *)
Definition NoText (env : Gemini.Env) (base64Image type : string) : Prop :=
  Gemini.apiKeySet env = true /\ Gemini.newClient env = true
  /\ exists mimeType data,
       Gemini.matchDataUrl base64Image = Some (mimeType, data)
       /\ (Gemini.generateContent env (requestFor mimeType data type) = Some None
           \/ Gemini.generateContent env (requestFor mimeType data type) = Some (Some "")).

(** a file the upload handler does not reject *)
Definition acceptedFile (file : ImageUploadBox.File) : Prop :=
  (ImageUploadBox.size file <= ImageUploadBox.maxSize)%Z
  /\ ImageUploadBox.includes ImageUploadBox.acceptedTypes (ImageUploadBox.type file) = true.

(** *** Environments of the examples *)

Definition pngDataUrl : string := "data:image/png;base64,iVBORw0KGgo=".

(** a key is configured and the classifier answers [text]; of [JSON.parse]
    only its value on the text "{}" and its failure on "oops" matter *)
Definition answering (text : option string) : Gemini.Env :=
  Gemini.mkEnv (Some "key") true (fun _ => Some text)
    (fun t => if t =? "{}" then Some (JObject []) else None).

(** a key is configured and the classification call throws *)
Definition unreachable : Gemini.Env :=
  Gemini.mkEnv (Some "key") true (fun _ => None) (fun _ => None).

Definition browser (g : Gemini.Env) : ImageUploadBox.Env :=
  ImageUploadBox.mkEnv g (fun _ => Some pngDataUrl) (fun _ => "blob:1").




(** *** The refund in IEEE binary64

    The amounts of the ledger are exact rationals in this development.  For
    the figures of the examples the same arithmetic is also evaluated on the
    doubles a JavaScript engine computes with; [0x1.ccccccccccccdp-1] is the
    double that the literal [0.9] denotes. *)

Definition refundBinary64 (totalPrice : PrimFloat.float) : PrimFloat.float :=
  PrimFloat.mul totalPrice (0x1.ccccccccccccdp-1)%float.

(** a store with one rental under way *)
Definition rentalUnderWay : App.State :=
  App.setBookings [Booking.with_status Constants.b1 IN_PROGRESS; Constants.b2] App.init.

(** ** Vocabulary of the further properties *)













(** the classification requests among the actions of a validation *)
Fixpoint sent (es : list Gemini.Effect) : list Gemini.Request :=
  match es with
  | [] => []
  | Gemini.GenerateContent req :: rest => req :: sent rest
  | _ :: rest => sent rest
  end.

(** the URLs handed to the parent's [onImageSelect] *)
Fixpoint notified (es : list ImageUploadBox.Effect) : list string :=
  match es with
  | [] => []
  | ImageUploadBox.OnImageSelect url :: rest => url :: notified rest
  | _ :: rest => notified rest
  end.

(** no [;] in a string, as in a base64 payload *)
Fixpoint noSemicolon (s : string) : bool :=
  match s with
  | EmptyString => true
  | String c rest => negb (Ascii.eqb c ";"%char) && noSemicolon rest
  end.

(** ** SearchPage and HomePage: the filtered list

    [String.prototype.toLowerCase] and [Number.prototype.toString] are the
    platform's and are taken as given; [includes] is the substring test (on
    well-formed UTF-8 a substring in bytes is a substring in characters). *)

Module SearchPage.
Record FilterContext := mkFilterContext {
  city : string;
  startDate : string;
  endDate : string
}.

Record Platform := mkPlatform {
  toLowerCase : string -> string;
  numberToString : number -> string
}.

Fixpoint startsWith (s p : string) : bool :=
  match p, s with
  | EmptyString, _ => true
  | String a p', String b s' => Ascii.eqb a b && startsWith s' p'
  | String _ _, EmptyString => false
  end.

(** [s.includes(term)] *)
Fixpoint includes (s term : string) : bool :=
  startsWith s term
  || match s with
     | EmptyString => false
     | String _ rest => includes rest term
     end.

(** [!filterContext.city || v.location === filterContext.city] *)
Definition matchesContext (filterContext : FilterContext) (v : Vehicle.t) : bool :=
  (city filterContext =? "") || (Vehicle.location v =? city filterContext).

Definition filteredVehicles (P : Platform) (vehicles : list Vehicle.t)
    (filterContext : FilterContext) (searchQuery : string) : list Vehicle.t :=
  filter
    (fun v =>
       if negb (matchesContext filterContext v) then false
       else if searchQuery =? "" then true
       else
         let term := toLowerCase P searchQuery in
         includes (toLowerCase P (Vehicle.make v)) term
         || includes (toLowerCase P (Vehicle.model v)) term
         || includes (numberToString P (Vehicle.year v)) term)
    (Listing.searchableVehicles vehicles).
End SearchPage.

Module HomePage.
(** the initial value of the city selector *)
Definition initialCity : string := "Bogotá".

(** the filter context [handleSearch] stores before going to the search page *)
Definition handleSearch (city : string) : SearchPage.FilterContext :=
  SearchPage.mkFilterContext city "" "".
End HomePage.

(** ** MyVehiclesPage: the owner's list and the steps of the wizard *)

Module OwnerWizard.
(** ['list' | 'add'] *)
Inductive View := showList | showAdd.

Record Page := mkPage {
  view : View;
  newCarStep : Z;
  newCarData : MyVehiclesPage.PartialVehicle
}.

Definition initPage : Page := mkPage showList 1 MyVehiclesPage.initialCarData.

(** [vehicles.filter(v => v.ownerId === 'o1' || v.ownerId === 'current')] *)
Definition myVehicles (vehicles : list Vehicle.t) : list Vehicle.t :=
  filter (fun v => (Vehicle.ownerId v =? "o1") || (Vehicle.ownerId v =? "current")) vehicles.

Definition handleStepNext (p : Page) : Page :=
  mkPage (view p) (newCarStep p + 1) (newCarData p).

Definition handleStepBack (p : Page) : Page :=
  mkPage (view p) (newCarStep p - 1) (newCarData p).

(** Events of the page.  [Edit d] stands for any [setNewCarData(d)] of the
    form; which fields a step of the form can set is not modelled. *)
Inductive Event :=
| ClickAdd
| ClickBack
| ClickPrimary (now : Z)
| Edit (d : MyVehiclesPage.PartialVehicle)
| ClickToggle (i : nat).

Definition step (e : Event) (w : App.State * Page) : option (App.State * Page) :=
  let '(s, p) := w in
  match view p, e with
  | showList, ClickAdd => Some (s, mkPage showAdd (newCarStep p) (newCarData p))
  | showList, ClickToggle i =>
      match nth_error (myVehicles (App.vehicles s)) i with
      | Some v => Some (App.handleToggleAvailability (Vehicle.id v) s, p)
      | None => None
      end
  | showAdd, ClickBack =>
      if (1 <? newCarStep p)%Z then Some (s, handleStepBack p)
      else Some (s, mkPage showList (newCarStep p) (newCarData p))
  | showAdd, ClickPrimary now =>
      if (newCarStep p =? 3)%Z then
        match MyVehiclesPage.handleSubmitVehicle now (newCarData p) s with
        | Some s' => Some (s', mkPage showList 1 MyVehiclesPage.initialCarData)
        | None => None
        end
      else Some (s, handleStepNext p)
  | showAdd, Edit d => Some (s, mkPage showAdd (newCarStep p) d)
  | _, _ => None
  end.

Fixpoint run (es : list Event) (w : App.State * Page) : option (App.State * Page) :=
  match es with
  | [] => Some w
  | e :: rest =>
      match step e w with
      | Some w' => run rest w'
      | None => None
      end
  end.
End OwnerWizard.

(** a platform for the examples: lower case of ASCII letters, decimal digits
    of whole numbers *)
Definition asciiLower (c : ascii) : ascii :=
  let n := nat_of_ascii c in
  if (65 <=? n)%nat && (n <=? 90)%nat then ascii_of_nat (n + 32) else c.

Fixpoint lowerAscii (s : string) : string :=
  match s with
  | EmptyString => EmptyString
  | String c rest => String (asciiLower c) (lowerAscii rest)
  end.

Definition asciiPlatform : SearchPage.Platform :=
  SearchPage.mkPlatform lowerAscii (fun q => JsDate.toString (Qnum q / Z.pos (Qden q))).

(** * Properties *)

(** ** The date formatting on known instants *)

Example isoDay_nov_2023 : JsDate.toISOString 1699574400123%Z = "2023-11-10T00:00:00.123Z".
Proof. reflexivity. Qed.
Example isoDay_leap : JsDate.toISODate 1709164800000%Z = "2024-02-29".
Proof. reflexivity. Qed.
Example isoDay_before_epoch : JsDate.toISOString (-1)%Z = "1969-12-31T23:59:59.999Z".
Proof. reflexivity. Qed.

Example newBooking_init :
  App.newBooking 1699574400123%Z Constants.v3 App.init
  = Booking.mk "b1699574400123" "v3" "u1" "2023-11-10" "2023-11-11" 200000 CONFIRMED
               Constants.v3 None.
Proof. reflexivity. Qed.

(** ** C1: the payment split *)

Section PaymentSplit.
Import VehicleDetailPage.

Variables (credits price : number) (applyCredits : bool).

Lemma creditDeduction_bounds :
  0 <= credits -> 0 <= price ->
  0 <= creditDeduction applyCredits credits price
  /\ creditDeduction applyCredits credits price <= credits
  /\ creditDeduction applyCredits credits price <= price.
Proof.
  intros Hc Hp. unfold creditDeduction.
  destruct applyCredits.
  - destruct (Q.min_spec credits price) as [[Hlt E] | [Hle E]]; rewrite E; lra.
  - lra.
Qed.

(** C1. For credits >= 0 and price > 0 and either position of the toggle,
    the checkout computes creditDeduction = (applyCredits ? min(credits,
    price) : 0) and cardCharge = price - creditDeduction; the two parts add
    up to the price, and neither is negative. *)
Theorem payment_split :
  0 <= credits -> 0 < price ->
  creditDeduction applyCredits credits price
    = (if applyCredits then Qmin credits price else 0)
  /\ cardCharge applyCredits credits price
    = price - creditDeduction applyCredits credits price
  /\ creditDeduction applyCredits credits price
     + cardCharge applyCredits credits price == price
  /\ 0 <= creditDeduction applyCredits credits price
  /\ 0 <= cardCharge applyCredits credits price.
Proof.
  intros Hc Hp.
  destruct creditDeduction_bounds as (H0 & _ & Hle); [lra | lra |].
  unfold cardCharge.
  repeat split; try reflexivity; try assumption; lra.
Qed.
End PaymentSplit.

Lemma payment_split_scenario :
  VehicleDetailPage.creditDeduction true 150000 450000 = 150000
  /\ VehicleDetailPage.cardCharge true 150000 450000 = 300000
  /\ VehicleDetailPage.creditDeduction true 150000 450000
     + VehicleDetailPage.cardCharge true 150000 450000 == 450000.
Proof.
  split; [reflexivity | split; [reflexivity |]].
  apply (payment_split 150000 450000 true); lra.
Defined.

Example payment_split_second_scenario :
  VehicleDetailPage.creditDeduction true 150000 100000 = 100000
  /\ VehicleDetailPage.cardCharge true 150000 100000 == 0.
Proof. split; reflexivity. Qed.

(** ** Lists of bookings addressed by id *)

Section ById.
Variables (f : Booking.t -> Booking.t) (id : string).

Lemma nth_error_onId (bs : list Booking.t) (i : nat) (b : Booking.t) :
  nth_error bs i = Some b ->
  nth_error (map (onId f id) bs) i = Some (onId f id b).
Proof. intros H. rewrite nth_error_map, H. reflexivity. Qed.

Lemma onId_other (b : Booking.t) : Booking.id b <> id -> onId f id b = b.
Proof.
  intros H. unfold onId. destruct (String.eqb_spec (Booking.id b) id); congruence.
Qed.


Hypothesis f_keeps_id : forall b, Booking.id (f b) = Booking.id b.


End ById.



(** ** C2: cancellation refunds 90% as credits *)

Lemma handleUpdateStatus_bookings (id : string) (st : BookingStatus) (s : App.State) :
  App.bookings (App.handleUpdateStatus id st s)
  = map (onId (fun b => Booking.with_status b st) id) (App.bookings s).
Proof. reflexivity. Qed.

Lemma handleCancelBooking_bookings (id : string) (s : App.State) :
  App.bookings (App.handleCancelBooking id s)
  = map (onId (fun b => Booking.with_status b CANCELLED) id) (App.bookings s).
Proof.
  unfold App.handleCancelBooking.
  destruct (find _ (App.bookings s)); reflexivity.
Qed.




(** on doubles, too, the refund of 1900000 is exactly 1710000 and the balance
    150000 becomes exactly 1860000 *)
Example refund_binary64 :
  PrimFloat.eqb (refundBinary64 1900000%float) 1710000%float = true
  /\ PrimFloat.eqb (PrimFloat.add 150000%float (refundBinary64 1900000%float))
                   1860000%float = true.
Proof. split; reflexivity. Qed.

(** ** C3: status transitions *)















(** Nor does the cancel handler look at the status: applied to a Finished
    booking it sets Cancelled and refunds. *)
Example finished_booking_cancelled :
  let s := Ledger.run [Ledger.UpdateStatus "b1" FINISHED] App.init in
  let s' := Ledger.apply (Ledger.Cancel "b1") s in
  option_map Booking.status (nth_error (App.bookings s) 0) = Some FINISHED
  /\ option_map Booking.status (nth_error (App.bookings s') 0) = Some CANCELLED
  /\ App.userCredits s' == 1860000.
Proof. repeat split. Qed.

Lemma handleAddReview_bookings (now : Z) (id : string) (r : number) (c : string)
    (s : App.State) :
  App.bookings (App.handleAddReview now id r c s)
  = map (onId (fun b => Booking.with_review b (Review.mk r c (JsDate.toISOString now))) id)
        (App.bookings s).
Proof. reflexivity. Qed.






Lemma handleBook_bookings (now : Z) (v : Vehicle.t) (d : number) (s : App.State) :
  App.bookings (App.handleBook now v d s)
  = (App.bookings s ++ [App.newBooking now v s])%list.
Proof. unfold App.handleBook. destruct (Qlt_le_dec 0 d); reflexivity. Qed.





(** a session: book the motorcycle with credits, then cancel that booking *)
Example session_book_then_cancel :
  match Session.run
          [Session.Pay 1699574400123 "v3" true;
           Session.OnReservations (ReservationsPage.ClickCancel 2);
           Session.OnReservations (ReservationsPage.ConfirmCancel 2)]
          (ReservationsPage.mount App.init) with
  | Some w =>
      map Booking.status (App.bookings (ReservationsPage.app w))
      = [CONFIRMED; PENDING; CANCELLED]
      /\ App.userCredits (ReservationsPage.app w) == 180000
  | None => False
  end.
Proof. split; reflexivity. Qed.

(** controls that are not rendered cannot be used: no finish on a Confirmed
    booking, no cancel without the overlay, no rating of a Pending booking *)
Example session_controls_absent :
  Session.run [Session.OnReservations (ReservationsPage.ClickFinish 0)]
              (ReservationsPage.mount App.init) = None
  /\ Session.run [Session.OnReservations (ReservationsPage.ConfirmCancel 0)]
                 (ReservationsPage.mount App.init) = None
  /\ Session.run [Session.OnReservations (ReservationsPage.ClickRate 1)]
                 (ReservationsPage.mount App.init) = None.
Proof. repeat split. Qed.

(** ** C4: reviews *)

(** The add-review handler applied to the Pending booking b2 of the initial
    store attaches the review: the booking is not left unchanged. *)
Lemma review_attached_to_pending_booking :
  let s' := App.handleAddReview 0 "b2" 5 "ok" App.init in
  option_map Booking.status (nth_error (App.bookings App.init) 1) = Some PENDING
  /\ option_map Booking.review (nth_error (App.bookings s') 1)
     = Some (Some (Review.mk 5 "ok" "1970-01-01T00:00:00.000Z"))
  /\ nth_error (App.bookings s') 1 <> nth_error (App.bookings App.init) 1.
Proof. repeat split. discriminate. Qed.

(** Applied twice, the handler replaces the first review by the second. *)
Example review_replaced :
  let s1 := App.handleAddReview 0 "b1" 5 "first" App.init in
  let s2 := App.handleAddReview 1000 "b1" 1 "second" s1 in
  option_map Booking.review (nth_error (App.bookings s1) 0)
  = Some (Some (Review.mk 5 "first" "1970-01-01T00:00:00.000Z"))
  /\ option_map Booking.review (nth_error (App.bookings s2) 0)
     = Some (Some (Review.mk 1 "second" "1970-01-01T00:00:01.000Z")).
Proof. split; reflexivity. Qed.

(** C4, as the code has it. The add-review handler is not guarded: the
    booking whose id is given gets the review (an earlier one is replaced)
    whatever its status, a booking with another id is unchanged, and nothing
    else in the store changes.  The guard is in the reservations page: the
    rate button of a card is rendered exactly when the booking is Finished and
    holds no review, so for any other booking the click cannot happen, and
    when it happens it only opens the review dialog on that booking. *)
Theorem add_review_effect (now : Z) (id : string) (rating : number) (comment : string)
    (w : ReservationsPage.World) (i : nat) (b : Booking.t) :
  ReservationsPage.card w i = Some b ->
  let s := ReservationsPage.app w in
  let s' := App.handleAddReview now id rating comment s in
  nth_error (App.bookings s') i
  = Some (if Booking.id b =? id
          then Booking.with_review b (Review.mk rating comment (JsDate.toISOString now))
          else b)
  /\ App.userCredits s' = App.userCredits s
  /\ App.vehicles s' = App.vehicles s
  /\ (Booking.status b <> FINISHED \/ Booking.review b <> None ->
      ReservationsPage.step (ReservationsPage.ClickRate i) w = None)
  /\ (Booking.status b = FINISHED /\ Booking.review b = None ->
      ReservationsPage.step (ReservationsPage.ClickRate i) w
      = Some (ReservationsPage.setLocal
                (ReservationsPage.handleOpenReview (Booking.id b) (ReservationsPage.local w))
                w)).
Proof.
  intros Hi s s'. subst s s'. unfold ReservationsPage.card in Hi.
  split; [| split; [reflexivity | split; [reflexivity |]]].
  - rewrite handleAddReview_bookings. now apply nth_error_onId.
  - simpl. unfold ReservationsPage.card. rewrite Hi.
    unfold ReservationsPage.rateButtonShown.
    split.
    + intros [Hs | Hr].
      * destruct (Booking.status b); simpl; congruence.
      * destruct (Booking.review b); [| congruence].
        now rewrite andb_false_r.
    + intros [-> ->]. reflexivity.
Qed.

Lemma add_review_effect_scenario :
  ReservationsPage.step (ReservationsPage.ClickRate 1) (ReservationsPage.mount App.init) = None
  /\ option_map Booking.status
       (nth_error (App.bookings (App.handleAddReview 0 "b1" 4 "" App.init)) 1)
     = Some PENDING.
Proof.
  destruct (add_review_effect 0 "b1" 4 "" (ReservationsPage.mount App.init) 1 Constants.b2
              eq_refl) as (Hb & _ & _ & Hno & _).
  split.
  - apply Hno. left. discriminate.
  - exact (f_equal (option_map Booking.status) Hb).
Defined.

(** The review dialog is also opened by the timer that finishing a rental
    sets.  If the user rates through the button before that timer fires, the
    dialog opens a second time on the booking, and a second review replaces
    the first. *)
Example review_twice_through_timer :
  match Session.run
          (map Session.OnReservations
             [ReservationsPage.ClickFinish 0;
              ReservationsPage.ClickRate 0; ReservationsPage.ClickStar 5;
              ReservationsPage.SubmitReview 0;
              ReservationsPage.TimerFires; ReservationsPage.ClickStar 1;
              ReservationsPage.SubmitReview 400])
          (ReservationsPage.mount rentalUnderWay) with
  | Some w =>
      option_map Booking.review (nth_error (App.bookings (ReservationsPage.app w)) 0)
      = Some (Some (Review.mk 1 "" "1970-01-01T00:00:00.400Z"))
  | None => False
  end.
Proof. reflexivity. Qed.

(** ** C5: fail-open validation *)

Example matchDataUrl_png :
  Gemini.matchDataUrl pngDataUrl = Some ("image/png", "iVBORw0KGgo=").
Proof. reflexivity. Qed.

Example matchDataUrl_greedy :
  Gemini.matchDataUrl "data:a;base64,b;base64,c" = Some ("a;base64,b", "c").
Proof. reflexivity. Qed.

Example matchDataUrl_empty_file : Gemini.matchDataUrl "data:" = None.
Proof. reflexivity. Qed.

(** A classifier response that carries no text is not treated as valid: the
    validation returns isValid = false, and the upload of an accepted file
    ends in the error state. *)
Lemma response_without_text_rejected :
  fst (Gemini.validateImageWithGemini (answering None) pngDataUrl "vehicle")
  = Gemini.invalid "No response from AI"
  /\ ImageUploadBox.statuses
       (ImageUploadBox.handleFileChange (browser (answering None))
          (Some ImageUploadBox.vehicle)
          (Some (ImageUploadBox.mkFile 1000 "image/png")))
     = [ImageUploadBox.uploading; ImageUploadBox.analyzing; ImageUploadBox.error]
  /\ fst (Gemini.validateImageWithGemini (answering None) pngDataUrl "vehicle")
     <> Gemini.valid.
Proof. repeat split. discriminate. Qed.

(** A response that parses but lacks the expected property is returned as it
    is, and the upload handler reads it as a rejection. *)
Example response_of_wrong_shape_rejected :
  fst (Gemini.validateImageWithGemini (answering (Some "{}")) pngDataUrl "vehicle")
  = JObject []
  /\ ImageUploadBox.replay
       (ImageUploadBox.handleFileChange (browser (answering (Some "{}")))
          (Some ImageUploadBox.vehicle)
          (Some (ImageUploadBox.mkFile 1000 "image/png")))
       ImageUploadBox.initComponent
     = ImageUploadBox.mkComponent ImageUploadBox.error (Some (JString "Imagen no válida")).
Proof. split; reflexivity. Qed.

Lemma validate_infra_failure (env : Gemini.Env) (base64Image type : string) :
  InfraFailure env base64Image type ->
  fst (Gemini.validateImageWithGemini env base64Image type) = Gemini.valid.
Proof.
  intros [Hk | Hk Hn | m d Hk Hn Hm Hc | m d text Hk Hn Hm Hc Hne Hp];
    unfold Gemini.validateImageWithGemini; rewrite Hk; simpl; [reflexivity | | |];
    rewrite Hn; simpl; [reflexivity | |];
    rewrite Hm; fold (requestFor m d type); rewrite Hc; [reflexivity |].
  destruct (String.eqb_spec text "") as [E | _]; [contradiction |].
  rewrite Hp. reflexivity.
Qed.

Lemma validate_no_text (env : Gemini.Env) (base64Image type : string) :
  NoText env base64Image type ->
  fst (Gemini.validateImageWithGemini env base64Image type)
  = Gemini.invalid "No response from AI".
Proof.
  intros (Hk & Hn & m & d & Hm & Hc).
  unfold Gemini.validateImageWithGemini; rewrite Hk, Hn; simpl.
  rewrite Hm; fold (requestFor m d type). destruct Hc as [-> | ->]; reflexivity.
Qed.

Lemma statuses_app (es es' : list ImageUploadBox.Effect) :
  ImageUploadBox.statuses (es ++ es')
  = (ImageUploadBox.statuses es ++ ImageUploadBox.statuses es')%list.
Proof.
  induction es as [| e es IH]; [reflexivity |].
  destruct e; simpl; rewrite IH; reflexivity.
Qed.

Lemma statuses_validation (done : list Gemini.Effect) :
  ImageUploadBox.statuses (map ImageUploadBox.Validation done) = [].
Proof. induction done; simpl; auto. Qed.

Lemma replay_validation (done : list Gemini.Effect) (c : ImageUploadBox.Component) :
  ImageUploadBox.replay (map ImageUploadBox.Validation done) c = c.
Proof. revert c. induction done; simpl; auto. Qed.

Lemma replay_app (es es' : list ImageUploadBox.Effect) (c : ImageUploadBox.Component) :
  ImageUploadBox.replay (es ++ es') c
  = ImageUploadBox.replay es' (ImageUploadBox.replay es c).
Proof. apply fold_left_app. Qed.

(** the handler on a file it accepts and can read, with validation on *)
Lemma handleFileChange_accepted (env : ImageUploadBox.Env)
    (vt : ImageUploadBox.ValidationType) (file : ImageUploadBox.File) (base64 : string) :
  acceptedFile file ->
  ImageUploadBox.readAsDataURL env file = Some base64 ->
  let r := Gemini.validateImageWithGemini (ImageUploadBox.gemini env) base64
             (ImageUploadBox.typeTag vt) in
  ImageUploadBox.handleFileChange env (Some vt) (Some file)
  = ([ImageUploadBox.SetErrorMsg None; ImageUploadBox.SetStatus ImageUploadBox.uploading;
      ImageUploadBox.ReadFile file; ImageUploadBox.SetStatus ImageUploadBox.analyzing]
     ++ map ImageUploadBox.Validation (snd r)
     ++ match Js.get (fst r) "isValid" with
        | Js.TypeError => ImageUploadBox.caught
        | g =>
            if negb (Js.truthyGet g)
            then [ImageUploadBox.SetStatus ImageUploadBox.error;
                  ImageUploadBox.SetErrorMsg (Some (ImageUploadBox.reasonOrDefault (fst r)))]
            else ImageUploadBox.accepted env file
        end)%list.
Proof.
  intros [Hsize Htype] Hread r. subst r.
  unfold ImageUploadBox.handleFileChange.
  replace (ImageUploadBox.maxSize <? ImageUploadBox.size file)%Z with false
    by (symmetry; apply Z.ltb_ge; assumption).
  rewrite Htype, Hread. simpl negb. cbv iota.
  destruct (Gemini.validateImageWithGemini _ base64 _) as [aiResult done].
  reflexivity.
Qed.

(** C5, as the code has it. On a file the handler accepts and can read, when
    no API key is configured, or the client cannot be made, or the
    classification call throws, or the response text is not parseable, the validation returns {isValid: true} and
    the upload goes uploading, analyzing, success.  A response that carries no
    text is not such a case: the validation returns {isValid: false, reason:
    "No response from AI"} and the upload ends in the error state. *)
Theorem validation_fails_open (env : ImageUploadBox.Env)
    (vt : ImageUploadBox.ValidationType) (file : ImageUploadBox.File) (base64 : string)
    (c : ImageUploadBox.Component) :
  acceptedFile file ->
  ImageUploadBox.readAsDataURL env file = Some base64 ->
  let validated := Gemini.validateImageWithGemini (ImageUploadBox.gemini env) base64
                     (ImageUploadBox.typeTag vt) in
  let done := ImageUploadBox.handleFileChange env (Some vt) (Some file) in
  (InfraFailure (ImageUploadBox.gemini env) base64 (ImageUploadBox.typeTag vt) ->
     fst validated = Gemini.valid
     /\ ImageUploadBox.statuses done
        = [ImageUploadBox.uploading; ImageUploadBox.analyzing; ImageUploadBox.success]
     /\ ImageUploadBox.replay done c
        = ImageUploadBox.mkComponent ImageUploadBox.success None)
  /\ (NoText (ImageUploadBox.gemini env) base64 (ImageUploadBox.typeTag vt) ->
     fst validated = Gemini.invalid "No response from AI"
     /\ ImageUploadBox.statuses done
        = [ImageUploadBox.uploading; ImageUploadBox.analyzing; ImageUploadBox.error]
     /\ ImageUploadBox.replay done c
        = ImageUploadBox.mkComponent ImageUploadBox.error
            (Some (JString "No response from AI"))).
Proof.
  intros Hacc Hread validated done. subst validated done.
  rewrite (handleFileChange_accepted env vt file base64 Hacc Hread). cbv zeta.
  split; intros H.
  - rewrite (validate_infra_failure _ _ _ H).
    split; [reflexivity |].
    rewrite !statuses_app, statuses_validation, !replay_app, replay_validation.
    split; reflexivity.
  - rewrite (validate_no_text _ _ _ H).
    split; [reflexivity |].
    rewrite !statuses_app, statuses_validation, !replay_app, replay_validation.
    split; reflexivity.
Qed.

Lemma validation_fails_open_scenario :
  ImageUploadBox.replay
    (ImageUploadBox.handleFileChange (browser unreachable) (Some ImageUploadBox.document)
       (Some (ImageUploadBox.mkFile 204800 "image/jpeg")))
    ImageUploadBox.initComponent
  = ImageUploadBox.mkComponent ImageUploadBox.success None.
Proof.
  assert (Hacc : acceptedFile (ImageUploadBox.mkFile 204800 "image/jpeg")).
  { split; [vm_compute; discriminate | reflexivity]. }
  destruct (validation_fails_open (browser unreachable) ImageUploadBox.document
              (ImageUploadBox.mkFile 204800 "image/jpeg") pngDataUrl
              ImageUploadBox.initComponent Hacc eq_refl) as [Hopen _].
  apply Hopen.
  apply (CallThrows _ _ _ "image/png" "iVBORw0KGgo="); reflexivity.
Defined.

Example unparseable_response_accepted :
  InfraFailure (answering (Some "oops")) pngDataUrl "face"
  /\ ImageUploadBox.statuses
       (ImageUploadBox.handleFileChange (browser (answering (Some "oops")))
          (Some ImageUploadBox.face) (Some (ImageUploadBox.mkFile 1 "image/webp")))
     = [ImageUploadBox.uploading; ImageUploadBox.analyzing; ImageUploadBox.success].
Proof.
  split; [| reflexivity].
  apply (Unparseable _ _ _ "image/png" "iVBORw0KGgo=" "oops");
    try reflexivity; discriminate.
Qed.

(** ** C6: files rejected before any classification *)

(** C6. A selected file larger than 5 MiB, or whose MIME type is not one of
    image/jpeg, image/png, image/webp, is rejected: the only status the
    handler sets is error, the file is not read, no classification request is
    sent, and the message names the size limit for an oversized file and the
    formats otherwise. *)
Theorem rejected_file (env : ImageUploadBox.Env)
    (validationType : option ImageUploadBox.ValidationType)
    (file : ImageUploadBox.File) (c : ImageUploadBox.Component) :
  (5 * 1024 * 1024 < ImageUploadBox.size file)%Z
  \/ ~ In (ImageUploadBox.type file) ["image/jpeg"; "image/png"; "image/webp"] ->
  let done := ImageUploadBox.handleFileChange env validationType (Some file) in
  ImageUploadBox.statuses done = [ImageUploadBox.error]
  /\ ImageUploadBox.calls done = []
  /\ (forall e, ~ In (ImageUploadBox.Validation e) done)
  /\ ~ In (ImageUploadBox.ReadFile file) done
  /\ ImageUploadBox.status (ImageUploadBox.replay done c) = ImageUploadBox.error
  /\ ImageUploadBox.errorMsg (ImageUploadBox.replay done c)
     = Some (JString (if (5 * 1024 * 1024 <? ImageUploadBox.size file)%Z
                      then "El archivo excede 5MB"
                      else "Solo formatos JPG o PNG")).
Proof.
  intros Hrej done. subst done. unfold ImageUploadBox.handleFileChange.
  change ImageUploadBox.maxSize with (5 * 1024 * 1024)%Z.
  destruct (5 * 1024 * 1024 <? ImageUploadBox.size file)%Z eqn:Hsize.
  - simpl. repeat split; try reflexivity; intuition discriminate.
  - assert (Htype : ImageUploadBox.includes ImageUploadBox.acceptedTypes
                      (ImageUploadBox.type file) = false).
    { destruct Hrej as [Hbig | Hnot]; [apply Z.ltb_ge in Hsize; lia |].
      unfold ImageUploadBox.includes, ImageUploadBox.acceptedTypes.
      destruct (existsb _ _) eqn:Hex; [| reflexivity].
      exfalso. apply Hnot. apply existsb_exists in Hex.
      destruct Hex as (y & Hin & Heq). apply String.eqb_eq in Heq. now subst. }
    rewrite Htype. simpl. repeat split; try reflexivity; intuition discriminate.
Qed.

Lemma rejected_file_six_megabytes :
  let done := ImageUploadBox.handleFileChange (browser (answering (Some "{}")))
                (Some ImageUploadBox.vehicle)
                (Some (ImageUploadBox.mkFile 6000000 "image/jpeg")) in
  ImageUploadBox.calls done = []
  /\ ImageUploadBox.replay done ImageUploadBox.initComponent
     = ImageUploadBox.mkComponent ImageUploadBox.error
         (Some (JString "El archivo excede 5MB")).
Proof.
  destruct (rejected_file (browser (answering (Some "{}"))) (Some ImageUploadBox.vehicle)
              (ImageUploadBox.mkFile 6000000 "image/jpeg") ImageUploadBox.initComponent)
    as (_ & Hcalls & _).
  - left. simpl. lia.
  - split; [exact Hcalls | reflexivity].
Defined.

Example rejected_file_gif :
  ImageUploadBox.replay
    (ImageUploadBox.handleFileChange (browser unreachable) None
       (Some (ImageUploadBox.mkFile 1024 "image/gif")))
    ImageUploadBox.initComponent
  = ImageUploadBox.mkComponent ImageUploadBox.error
      (Some (JString "Solo formatos JPG o PNG")).
Proof. reflexivity. Qed.

(** ** C7: booking creation *)

Lemma handleBook_credits (now : Z) (v : Vehicle.t) (d : number) (s : App.State) :
  App.userCredits (App.handleBook now v d s)
  = if Qlt_le_dec 0 d then Qmax 0 (App.userCredits s - d) else App.userCredits s.
Proof. unfold App.handleBook. destruct (Qlt_le_dec 0 d); reflexivity. Qed.

(** C7. Booking a vehicle with a credit deduction d >= 0 on a balance that is
    not negative appends one booking, Confirmed, whose total price is the
    vehicle's price per day whatever the clock (and so whatever the dates),
    with the vehicle as snapshot and no review; the balance becomes
    max(0, balance - d); vehicles and user are untouched. *)
Theorem booking_creation (now : Z) (vehicle : Vehicle.t) (creditDeduction : number)
    (s : App.State) :
  0 <= creditDeduction -> 0 <= App.userCredits s ->
  let s' := App.handleBook now vehicle creditDeduction s in
  exists nb,
    App.bookings s' = (App.bookings s ++ [nb])%list
    /\ Booking.status nb = CONFIRMED
    /\ Booking.totalPrice nb = Vehicle.pricePerDay vehicle
    /\ (forall now', Booking.totalPrice (App.newBooking now' vehicle s)
                     = Vehicle.pricePerDay vehicle)
    /\ Booking.vehicleSnapshot nb = vehicle
    /\ Booking.review nb = None
    /\ App.userCredits s' == Qmax 0 (App.userCredits s - creditDeduction)
    /\ App.vehicles s' = App.vehicles s
    /\ App.user s' = App.user s.
Proof.
  intros Hd Hc s'. subst s'. exists (App.newBooking now vehicle s).
  rewrite handleBook_bookings, handleBook_credits.
  repeat split; try reflexivity.
  - destruct (Qlt_le_dec 0 creditDeduction) as [Hpos | Hle]; [reflexivity |].
    rewrite Q.max_r; lra.
  - unfold App.handleBook. destruct (Qlt_le_dec 0 creditDeduction); reflexivity.
  - unfold App.handleBook. destruct (Qlt_le_dec 0 creditDeduction); reflexivity.
Qed.

Lemma booking_creation_scenario :
  exists nb,
    App.bookings (App.handleBook 1699574400123 Constants.v1 150000 App.init)
    = [Constants.b1; Constants.b2; nb]
    /\ Booking.status nb = CONFIRMED
    /\ Booking.totalPrice nb = 450000
    /\ App.userCredits (App.handleBook 1699574400123 Constants.v1 150000 App.init) == 0.
Proof.
  destruct (booking_creation 1699574400123 Constants.v1 150000 App.init)
    as (nb & Hb & Hs & Hp & _ & _ & _ & Hc & _).
  - lra.
  - simpl. lra.
  - exists nb. split; [exact Hb |]. split; [exact Hs |]. split; [exact Hp |].
    rewrite Hc. reflexivity.
Defined.

(** a deduction larger than the balance is floored at zero *)
Example booking_floor :
  App.userCredits (App.handleBook 0 Constants.v3 200000 App.init) == 0.
Proof. reflexivity. Qed.

(** ** C8: the credits balance is never negative *)





(** ** C9: the vehicle snapshot of a booking never changes *)

Lemma apply_keeps_snapshot (o : Ledger.Op) (s : App.State) (i : nat) (b : Booking.t) :
  nth_error (App.bookings s) i = Some b ->
  exists b', nth_error (App.bookings (Ledger.apply o s)) i = Some b'
             /\ Booking.vehicleSnapshot b' = Booking.vehicleSnapshot b
             /\ Booking.id b' = Booking.id b.
Proof.
  intros Hi.
  assert (Hmap : forall f id,
             (forall x, Booking.vehicleSnapshot (f x) = Booking.vehicleSnapshot x) ->
             (forall x, Booking.id (f x) = Booking.id x) ->
             exists b', nth_error (map (onId f id) (App.bookings s)) i = Some b'
                        /\ Booking.vehicleSnapshot b' = Booking.vehicleSnapshot b
                        /\ Booking.id b' = Booking.id b).
  { intros f id Hv Hid. exists (onId f id b).
    split; [now apply nth_error_onId |].
    unfold onId. destruct (_ =? _); auto. }
  destruct o; cbn [Ledger.apply].
  - exists b. rewrite handleBook_bookings.
    rewrite nth_error_app1; [auto |]. apply nth_error_Some. congruence.
  - rewrite handleCancelBooking_bookings. now apply Hmap.
  - rewrite handleUpdateStatus_bookings. now apply Hmap.
  - rewrite handleAddReview_bookings. now apply Hmap.
  - exists b. auto.
  - exists b. auto.
Qed.

(** C9. Whatever operations follow (bookings, cancellations, status updates,
    reviews, new vehicles, availability toggles), a booking stays at its
    place in the list with the same id and the same vehicle snapshot. *)
Theorem vehicleSnapshot_immutable (os : list Ledger.Op) (s : App.State)
    (i : nat) (b : Booking.t) :
  nth_error (App.bookings s) i = Some b ->
  exists b', nth_error (App.bookings (Ledger.run os s)) i = Some b'
             /\ Booking.vehicleSnapshot b' = Booking.vehicleSnapshot b
             /\ Booking.id b' = Booking.id b.
Proof.
  revert s b. induction os as [| o os IH]; intros s b Hi.
  - exists b. auto.
  - destruct (apply_keeps_snapshot o s i b Hi) as (b1 & Hi1 & Hv1 & Hid1).
    destruct (IH _ b1 Hi1) as (b' & Hi' & Hv' & Hid').
    exists b'. simpl. repeat split; [exact Hi' | congruence | congruence].
Qed.

Lemma vehicleSnapshot_immutable_scenario :
  exists b',
    nth_error
      (App.bookings
         (Ledger.run [Ledger.ToggleAvailability "v2"; Ledger.UpdateStatus "b1" FINISHED;
                      Ledger.AddReview 0 "b1" 5 "ok"] App.init)) 0 = Some b'
    /\ Booking.vehicleSnapshot b' = Constants.v2
    /\ option_map Vehicle.isAvailable
         (nth_error
            (App.vehicles
               (Ledger.run [Ledger.ToggleAvailability "v2";
                            Ledger.UpdateStatus "b1" FINISHED;
                            Ledger.AddReview 0 "b1" 5 "ok"] App.init)) 1)
       = Some false.
Proof.
  destruct (vehicleSnapshot_immutable
              [Ledger.ToggleAvailability "v2"; Ledger.UpdateStatus "b1" FINISHED;
               Ledger.AddReview 0 "b1" 5 "ok"] App.init 0 Constants.b1 eq_refl)
    as (b' & Hi & Hv & _).
  exists b'. split; [exact Hi |]. split; [exact Hv | reflexivity].
Defined.

(** ** C10: a vehicle published by the wizard is listed at once *)



(** even the untouched wizard data is published as verified and available *)
Example empty_wizard_visible :
  MyVehiclesPage.visibleObject
    (MyVehiclesPage.submitted 0 MyVehiclesPage.initialCarData) = true.
Proof. reflexivity. Qed.

(** * Further properties of the handlers *)

(** ** Ids that denote nothing *)

Lemma map_onId_absent (f : Booking.t -> Booking.t) (id : string) (bs : list Booking.t) :
  ~ In id (map Booking.id bs) -> map (onId f id) bs = bs.
Proof.
  intros Hno. rewrite <- (map_id bs) at 2. apply map_ext_in.
  intros b Hb. apply onId_other. intros E. apply Hno. rewrite <- E. now apply in_map.
Qed.

Lemma find_absent (id : string) (bs : list Booking.t) :
  ~ In id (map Booking.id bs) -> find (fun b => Booking.id b =? id) bs = None.
Proof.
  intros Hno. destruct (find _ bs) as [b |] eqn:Hf; [| reflexivity].
  apply find_some in Hf. destruct Hf as [Hin E]. apply String.eqb_eq in E.
  exfalso. apply Hno. rewrite <- E. now apply in_map.
Qed.

Lemma setBookings_same (s : App.State) : App.setBookings (App.bookings s) s = s.
Proof. destruct s; reflexivity. Qed.

(** X1. An id that no booking carries is ignored: cancelling it refunds
    nothing and changes no booking, and updating its status or reviewing it
    leaves the store as it is. *)
Theorem unknown_booking_id_ignored (now : Z) (id : string) (status : BookingStatus)
    (rating : number) (comment : string) (s : App.State) :
  ~ In id (map Booking.id (App.bookings s)) ->
  App.handleCancelBooking id s = s
  /\ App.handleUpdateStatus id status s = s
  /\ App.handleAddReview now id rating comment s = s.
Proof.
  intros Hno. unfold App.handleCancelBooking.
  rewrite (find_absent _ _ Hno).
  unfold App.handleUpdateStatus, App.handleAddReview.
  fold (onId (fun b => Booking.with_status b CANCELLED) id).
  fold (onId (fun b => Booking.with_status b status) id).
  fold (onId (fun b => Booking.with_review b
                         (Review.mk rating comment (JsDate.toISOString now))) id).
  rewrite !map_onId_absent by assumption.
  repeat split; apply setBookings_same.
Qed.

Lemma unknown_booking_id_ignored_scenario :
  App.handleCancelBooking "b9" App.init = App.init.
Proof.
  apply (unknown_booking_id_ignored 0 "b9" PENDING 0 "" App.init).
  simpl. intuition discriminate.
Defined.

(** ** Availability toggle *)

Lemma with_isAvailable_twice (v : Vehicle.t) :
  Vehicle.with_isAvailable
    (Vehicle.with_isAvailable v (negb (Vehicle.isAvailable v)))
    (negb (Vehicle.isAvailable (Vehicle.with_isAvailable v (negb (Vehicle.isAvailable v)))))
  = v.
Proof. destruct v as [? ? ? ? ? ? ? ? ? a ? ? ? ?]. simpl. now rewrite negb_involutive. Qed.

Lemma handleToggleAvailability_involutive (id : string) (s : App.State) :
  App.handleToggleAvailability id (App.handleToggleAvailability id s) = s.
Proof.
  destruct s as [vs bs u c]. unfold App.handleToggleAvailability, App.setVehicles. simpl.
  f_equal. rewrite map_map. rewrite <- (map_id vs) at 2. apply map_ext.
  intros v. destruct (Vehicle.id v =? id) eqn:E.
  - change (Vehicle.id (Vehicle.with_isAvailable v (negb (Vehicle.isAvailable v))))
      with (Vehicle.id v).
    rewrite E. apply with_isAvailable_twice.
  - rewrite E. reflexivity.
Qed.

(** X2. Toggling the availability of a vehicle id twice gives back the
    store; one toggle changes nothing but the isAvailable flag of the vehicles
    of that id, and no booking or credit. *)
Theorem toggle_availability_twice (id : string) (s : App.State) :
  App.handleToggleAvailability id (App.handleToggleAvailability id s) = s
  /\ App.bookings (App.handleToggleAvailability id s) = App.bookings s
  /\ App.userCredits (App.handleToggleAvailability id s) = App.userCredits s
  /\ (forall i v, nth_error (App.vehicles s) i = Some v ->
        nth_error (App.vehicles (App.handleToggleAvailability id s)) i
        = Some (if Vehicle.id v =? id
                then Vehicle.with_isAvailable v (negb (Vehicle.isAvailable v))
                else v)).
Proof.
  split; [apply handleToggleAvailability_involutive |].
  split; [reflexivity | split; [reflexivity |]].
  intros i v Hi. simpl. rewrite nth_error_map, Hi. reflexivity.
Qed.

Lemma in_distinct_keys {A : Type} (key : A -> string) (l : list A) (a b : A) :
  NoDup (map key l) -> In a l -> In b l -> key a = key b -> a = b.
Proof.
  induction l as [| x l IH]; intros Hnd Ha Hb E; [contradiction |].
  inversion Hnd as [| ? ? Hnotin Hnd']; subst.
  destruct Ha as [-> | Ha], Hb as [-> | Hb]; auto.
  - exfalso. apply Hnotin. rewrite E. now apply in_map.
  - exfalso. apply Hnotin. rewrite <- E. now apply in_map.
Qed.

Lemma in_toggled (id : string) (s : App.State) (u : Vehicle.t) :
  In u (App.vehicles (App.handleToggleAvailability id s)) <->
  exists w, In w (App.vehicles s)
            /\ u = if Vehicle.id w =? id
                   then Vehicle.with_isAvailable w (negb (Vehicle.isAvailable w))
                   else w.
Proof.
  simpl. rewrite in_map_iff. split; intros (w & H1 & H2); exists w; auto.
Qed.

(** X3. With distinct vehicle ids, toggling a listed vehicle takes it off the
    listings of the home and search pages, toggling a paused verified vehicle
    puts it on them, and the listing of every other vehicle is unaffected. *)
Theorem toggle_availability_listing (id : string) (s : App.State) (v : Vehicle.t) :
  NoDup (map Vehicle.id (App.vehicles s)) ->
  In v (App.vehicles s) -> Vehicle.id v = id ->
  let listed := Listing.searchableVehicles (App.vehicles (App.handleToggleAvailability id s)) in
  (Listing.visible v = true -> forall u, In u listed -> Vehicle.id u <> id)
  /\ (Vehicle.verificationStatus v = verified -> Vehicle.isAvailable v = false ->
      In (Vehicle.with_isAvailable v true) listed)
  /\ (forall u, Vehicle.id u <> id ->
        (In u listed <-> In u (Listing.searchableVehicles (App.vehicles s)))).
Proof.
  intros Hnd Hv Hid listed. subst listed. unfold Listing.searchableVehicles.
  split; [| split].
  - intros Hvis u Hu E. apply filter_In in Hu. destruct Hu as [Hu Hvu].
    apply in_toggled in Hu. destruct Hu as (w & Hw & ->).
    destruct (String.eqb_spec (Vehicle.id w) id) as [Ew | Ew]; [| contradiction].
    assert (w = v) as -> by (eapply (in_distinct_keys Vehicle.id); eauto; congruence).
    unfold Listing.visible in Hvis, Hvu. simpl in Hvu.
    apply andb_true_iff in Hvis. destruct Hvis as [_ Ha]. rewrite Ha in Hvu.
    now rewrite andb_false_r in Hvu.
  - intros Hver Hav. apply filter_In. split.
    + apply in_toggled. exists v. split; [assumption |].
      rewrite Hid, String.eqb_refl, Hav. reflexivity.
    + unfold Listing.visible. simpl. now rewrite Hver.
  - intros u Hu. rewrite !filter_In, in_toggled. split.
    + intros [(w & Hw & ->) Hvis].
      destruct (String.eqb_spec (Vehicle.id w) id) as [Ew | Ew]; [contradiction | auto].
    + intros [Hin Hvis]. split; [| assumption]. exists u. split; [assumption |].
      destruct (String.eqb_spec (Vehicle.id u) id); [contradiction | reflexivity].
Qed.

Lemma toggle_availability_listing_scenario :
  ~ In Constants.v2
      (Listing.searchableVehicles
         (App.vehicles (App.handleToggleAvailability "v2" App.init)))
  /\ In Constants.v3
       (Listing.searchableVehicles
          (App.vehicles (App.handleToggleAvailability "v2" App.init))).
Proof.
  assert (Hnd : NoDup (map Vehicle.id (App.vehicles App.init))).
  { simpl. repeat constructor; simpl; intuition discriminate. }
  destruct (toggle_availability_listing "v2" App.init Constants.v2 Hnd) as (Hoff & _ & Hother).
  - simpl. auto.
  - reflexivity.
  - split.
    + intros Hin. exact (Hoff eq_refl _ Hin eq_refl).
    + apply (Hother Constants.v3); [discriminate |].
      unfold Listing.searchableVehicles. simpl. auto.
Defined.

(** ** Cancelling twice *)



(** ** Payment on the detail page *)



(** ** Booking and then cancelling *)




(** ** Booking ids *)

Lemma NoDup_snoc (l : list string) (x : string) :
  NoDup l -> ~ In x l -> NoDup (l ++ [x]).
Proof.
  induction l as [| a l IH]; intros Hnd Hx; simpl.
  - constructor; [intros [] | constructor].
  - inversion Hnd as [| ? ? Ha Hl]; subst. constructor.
    + intros H. apply in_app_or in H. destruct H as [H | [-> | []]]; [auto |].
      apply Hx. now left.
    + apply IH; [assumption |]. intros H. apply Hx. now right.
Qed.

Lemma toString_inj (a b : Z) : JsDate.toString a = JsDate.toString b -> a = b.
Proof.
  unfold JsDate.toString. intros E.
  assert (Hnn : forall z, Z.to_int z <> Decimal.Pos Decimal.Nil
                          /\ Z.to_int z <> Decimal.Neg Decimal.Nil).
  { intros [| p | p]; simpl; split; try discriminate;
      intros [= H]; exact (DecimalPos.Unsigned.to_uint_nonnil p H). }
  apply DecimalZ.to_int_inj.
  assert (H : NilZero.int_of_string (NilZero.string_of_int (Z.to_int a))
              = NilZero.int_of_string (NilZero.string_of_int (Z.to_int b)))
    by now rewrite E.
  rewrite !NilZero.isi in H by apply Hnn. now injection H.
Qed.

(** X7. The id of a new booking is determined by the clock reading alone:
    two bookings get the same id exactly when they are made in the same
    millisecond; and a booking whose id is new keeps the ids of the store
    distinct. *)
Theorem booking_ids_from_clock (now now' : Z) (v v' : Vehicle.t) (d : number)
    (s s' : App.State) :
  (Booking.id (App.newBooking now v s) = Booking.id (App.newBooking now' v' s')
   <-> now = now')
  /\ (distinctIds s ->
      ~ In (Booking.id (App.newBooking now v s)) (map Booking.id (App.bookings s)) ->
      distinctIds (App.handleBook now v d s)).
Proof.
  split.
  - simpl. split; [| now intros ->].
    intros [= E]. now apply toString_inj.
  - unfold distinctIds. intros Hnd Hfresh.
    rewrite handleBook_bookings, map_app. now apply NoDup_snoc.
Qed.

Lemma booking_ids_from_clock_scenario :
  distinctIds (App.handleBook 1699574400123 Constants.v1 0 App.init).
Proof.
  apply (booking_ids_from_clock 1699574400123 0 Constants.v1 Constants.v1 0
           App.init App.init).
  - unfold distinctIds. simpl. repeat constructor; simpl; intuition discriminate.
  - simpl. intuition discriminate.
Defined.

(** * Further properties of the reservations page *)











(** ** Ratings given on the page *)






(** ** Reviews go to Finished bookings *)









(** * Further properties of the image validation and the upload box *)

(** ** The data URL *)

Lemma stripPrefix_sound (p s r : string) :
  Gemini.stripPrefix p s = Some r -> s = (p ++ r)%string.
Proof.
  revert s. induction p as [| a p IH]; intros s H; simpl in H.
  - now injection H as ->.
  - destruct s as [| b s]; [discriminate |].
    destruct (Ascii.eqb_spec a b) as [-> | _]; [| discriminate].
    simpl. f_equal. now apply IH.
Qed.

Lemma stripPrefix_app (p r : string) : Gemini.stripPrefix p (p ++ r) = Some r.
Proof. induction p as [| a p IH]; simpl; [reflexivity |]. now rewrite Ascii.eqb_refl. Qed.

Lemma lastSplit_sound (r g1 g2 : string) :
  Gemini.lastSplit r = Some (g1, g2) ->
  r = (g1 ++ ";base64," ++ g2)%string /\ g2 <> "".
Proof.
  revert g1. induction r as [| c r IH]; intros g1 H; [discriminate |].
  cbn [Gemini.lastSplit] in H.
  destruct (Gemini.lastSplit r) as [[h1 h2] |].
  - injection H as <- <-. destruct (IH h1 eq_refl) as [-> Hne]. now split.
  - destruct (Gemini.stripPrefix ";base64," (String c r)) as [t |] eqn:Hp; [| discriminate].
    destruct (String.eqb_spec t "") as [| Hne]; [discriminate |].
    injection H as <- <-. apply stripPrefix_sound in Hp. now split.
Qed.

Lemma lastSplit_noSemicolon (s : string) : noSemicolon s = true -> Gemini.lastSplit s = None.
Proof.
  induction s as [| c s IH]; intros H; [reflexivity |].
  simpl in H. apply andb_true_iff in H. destruct H as [Hc Hs].
  cbn [Gemini.lastSplit]. rewrite (IH Hs).
  cbn [Gemini.stripPrefix]. rewrite Ascii.eqb_sym.
  destruct (Ascii.eqb c ";"%char); [discriminate | reflexivity].
Qed.

Lemma lastSplit_complete (m d : string) :
  d <> "" -> noSemicolon d = true ->
  Gemini.lastSplit (m ++ ";base64," ++ d) = Some (m, d).
Proof.
  intros Hne Hd. induction m as [| c m IH].
  - change ("" ++ ";base64," ++ d)%string with (String ";" ("base64," ++ d)).
    cbn [Gemini.lastSplit]. rewrite lastSplit_noSemicolon by exact Hd.
    change (String ";" ("base64," ++ d)) with (";base64," ++ d)%string.
    rewrite stripPrefix_app.
    destruct (String.eqb_spec d ""); [contradiction | reflexivity].
  - change (String c m ++ ";base64," ++ d)%string
      with (String c (m ++ ";base64," ++ d)).
    cbn [Gemini.lastSplit]. now rewrite IH.
Qed.

(** X11. The data URL pattern takes a string apart losslessly: when it
    matches, "data:" + mimeType + ";base64," + data is the string, and neither
    part is empty; and a string so built, on one line, from a non-empty MIME
    type and a non-empty payload without a semicolon (such as base64 text)
    matches with exactly these parts. *)
Theorem matchDataUrl_round_trip (s m d : string) :
  (Gemini.matchDataUrl s = Some (m, d) ->
   s = ("data:" ++ m ++ ";base64," ++ d)%string /\ m <> "" /\ d <> "")
  /\ (m <> "" -> d <> "" -> noSemicolon d = true ->
      Gemini.hasLineTerminator (m ++ ";base64," ++ d) = false ->
      Gemini.matchDataUrl ("data:" ++ m ++ ";base64," ++ d) = Some (m, d)).
Proof.
  split.
  - unfold Gemini.matchDataUrl. intros H.
    destruct (Gemini.stripPrefix "data:" s) as [r |] eqn:Hp; [| discriminate].
    destruct (Gemini.hasLineTerminator r); [discriminate |].
    destruct (Gemini.lastSplit r) as [[g1 g2] |] eqn:Hl; [| discriminate].
    destruct (String.eqb_spec g1 "") as [| Hne]; [discriminate |].
    injection H as -> ->. apply stripPrefix_sound in Hp.
    apply lastSplit_sound in Hl. destruct Hl as [-> Hd]. auto.
  - intros Hm Hd Hsemi Hlt. unfold Gemini.matchDataUrl.
    rewrite stripPrefix_app, Hlt, lastSplit_complete by assumption.
    destruct (String.eqb_spec m ""); [contradiction | reflexivity].
Qed.

Lemma matchDataUrl_round_trip_scenario :
  Gemini.matchDataUrl "data:image/webp;base64,UklGRg==" = Some ("image/webp", "UklGRg==").
Proof.
  apply (matchDataUrl_round_trip "" "image/webp" "UklGRg==");
    first [discriminate | reflexivity].
Defined.

(** ** Requests sent *)

(** X12. A validation sends at most one classification request, and sends it
    exactly when an API key is configured, the client can be made and the
    image is a data URL; the request then names the model
    gemini-2.5-flash-image, carries the MIME type and payload of the data URL
    and the instruction of the type tag, and asks for JSON. *)
Theorem validation_requests (env : Gemini.Env) (base64Image type : string) :
  sent (snd (Gemini.validateImageWithGemini env base64Image type))
  = (if Gemini.apiKeySet env && Gemini.newClient env
     then match Gemini.matchDataUrl base64Image with
          | Some (mimeType, data) =>
              [Gemini.mkRequest "gemini-2.5-flash-image" mimeType data
                 (Gemini.promptText type) "application/json"]
          | None => []
          end
     else [])
  /\ (List.length (sent (snd (Gemini.validateImageWithGemini env base64Image type))) <= 1)%nat.
Proof.
  unfold Gemini.validateImageWithGemini.
  destruct (Gemini.apiKeySet env); simpl; [| split; [reflexivity | lia]].
  destruct (Gemini.newClient env); simpl; [| split; [reflexivity | lia]].
  destruct (Gemini.matchDataUrl base64Image) as [[m d] |]; [| split; [reflexivity | simpl; lia]].
  destruct (Gemini.generateContent env _) as [[text |] |];
    [| split; [reflexivity | simpl; lia] ..].
  destruct (text =? ""); [split; [reflexivity | simpl; lia] |].
  destruct (Gemini.JSON_parse env text); split; try reflexivity; simpl; lia.
Qed.

(** ** Outcomes of an upload *)

Lemma notified_app (es es' : list ImageUploadBox.Effect) :
  notified (es ++ es') = (notified es ++ notified es')%list.
Proof.
  induction es as [| e es IH]; [reflexivity |].
  destruct e; simpl; rewrite IH; reflexivity.
Qed.

Lemma notified_validation (done : list Gemini.Effect) :
  notified (map ImageUploadBox.Validation done) = [].
Proof. induction done; simpl; auto. Qed.

Ltac upload_case :=
  cbn [app ImageUploadBox.statuses notified ImageUploadBox.replay fold_left
       ImageUploadBox.perform ImageUploadBox.caught ImageUploadBox.accepted];
  rewrite ?statuses_app, ?statuses_validation, ?notified_app, ?notified_validation,
    ?replay_app, ?replay_validation;
  cbn [app ImageUploadBox.statuses notified ImageUploadBox.replay fold_left
       ImageUploadBox.perform ImageUploadBox.status ImageUploadBox.errorMsg];
  cbn [In]; repeat split; intros; try reflexivity; try discriminate; auto 8.

(** X13. Whatever the file, the environment and the verdict, an upload runs
    through the states in order and stops in a final one: the statuses set
    are error alone (file rejected), or uploading then error (unreadable
    file), or uploading, analyzing and then error or success.  On success the
    parent is notified exactly once, with the object URL of the file, and no
    error message is left; on error the parent is not notified and a message
    is set. *)
Theorem upload_outcomes (env : ImageUploadBox.Env)
    (validationType : option ImageUploadBox.ValidationType)
    (file : ImageUploadBox.File) (c : ImageUploadBox.Component) :
  let done := ImageUploadBox.handleFileChange env validationType (Some file) in
  let final := ImageUploadBox.replay done c in
  In (ImageUploadBox.statuses done)
     [[ImageUploadBox.error];
      [ImageUploadBox.uploading; ImageUploadBox.error];
      [ImageUploadBox.uploading; ImageUploadBox.analyzing; ImageUploadBox.error];
      [ImageUploadBox.uploading; ImageUploadBox.analyzing; ImageUploadBox.success]]
  /\ (ImageUploadBox.status final = ImageUploadBox.success
      \/ ImageUploadBox.status final = ImageUploadBox.error)
  /\ (ImageUploadBox.status final = ImageUploadBox.success ->
      notified done = [ImageUploadBox.createObjectURL env file]
      /\ ImageUploadBox.errorMsg final = None)
  /\ (ImageUploadBox.status final = ImageUploadBox.error ->
      notified done = [] /\ ImageUploadBox.errorMsg final <> None).
Proof.
  intros done final. subst done final. unfold ImageUploadBox.handleFileChange.
  destruct (ImageUploadBox.maxSize <? ImageUploadBox.size file)%Z; [upload_case |].
  destruct (ImageUploadBox.includes _ _); cbn [negb]; [| upload_case].
  destruct (ImageUploadBox.readAsDataURL env file) as [base64 |]; [| upload_case].
  destruct validationType as [vt |]; [| upload_case].
  destruct (Gemini.validateImageWithGemini _ base64 _) as [aiResult effs].
  destruct (Js.get aiResult "isValid") as [v | |]; cbn [Js.truthyGet negb];
    [destruct (Js.truthy v); cbn [negb] | |]; upload_case.
Qed.

(** an unreadable file: uploading, then error, and nothing is sent *)
Example upload_unreadable :
  let env := ImageUploadBox.mkEnv unreachable (fun _ => None) (fun _ => "blob:1") in
  let done := ImageUploadBox.handleFileChange env (Some ImageUploadBox.vehicle)
                (Some (ImageUploadBox.mkFile 10 "image/png")) in
  ImageUploadBox.statuses done = [ImageUploadBox.uploading; ImageUploadBox.error]
  /\ ImageUploadBox.calls done = []
  /\ ImageUploadBox.errorMsg (ImageUploadBox.replay done ImageUploadBox.initComponent)
     = Some (JString "Error al procesar").
Proof. repeat split. Qed.

(** * Further properties of the listings and the owner's page *)

(** ** Search results *)

Lemma matchesContext_spec (fc : SearchPage.FilterContext) (v : Vehicle.t) :
  SearchPage.matchesContext fc v = true
  <-> SearchPage.city fc = "" \/ Vehicle.location v = SearchPage.city fc.
Proof.
  unfold SearchPage.matchesContext. rewrite orb_true_iff, !String.eqb_eq. reflexivity.
Qed.

Lemma visible_spec (v : Vehicle.t) :
  Listing.visible v = true
  <-> Vehicle.verificationStatus v = verified /\ Vehicle.isAvailable v = true.
Proof.
  unfold Listing.visible. rewrite andb_true_iff.
  destruct (Vehicle.verificationStatus v); simpl; intuition discriminate.
Qed.

Lemma filteredVehicles_spec (P : SearchPage.Platform) (vehicles : list Vehicle.t)
    (fc : SearchPage.FilterContext) (searchQuery : string) (v : Vehicle.t) :
  (In v (SearchPage.filteredVehicles P vehicles fc searchQuery) ->
   In v vehicles /\ Listing.visible v = true /\ SearchPage.matchesContext fc v = true)
  /\ (In v vehicles /\ Listing.visible v = true /\ SearchPage.matchesContext fc v = true ->
      In v (SearchPage.filteredVehicles P vehicles fc "")).
Proof.
  unfold SearchPage.filteredVehicles, Listing.searchableVehicles.
  rewrite !filter_In. split.
  - intros [[Hin Hvis] Hm]. split; [exact Hin |]. split; [exact Hvis |].
    destruct (SearchPage.matchesContext fc v); [reflexivity | simpl in Hm; discriminate Hm].
  - intros (Hin & Hvis & Hm). rewrite Hm. auto.
Qed.

(** X14. Whatever is typed in the search box, a vehicle in the results is a
    vehicle of the store that is verified, available and, when a city was
    chosen, located in that city; with an empty search box the results are
    all such vehicles. *)
Theorem search_results (P : SearchPage.Platform) (vehicles : list Vehicle.t)
    (filterContext : SearchPage.FilterContext) (searchQuery : string) (v : Vehicle.t) :
  (In v (SearchPage.filteredVehicles P vehicles filterContext searchQuery) ->
   In v vehicles
   /\ Vehicle.verificationStatus v = verified /\ Vehicle.isAvailable v = true
   /\ (SearchPage.city filterContext = ""
       \/ Vehicle.location v = SearchPage.city filterContext))
  /\ (In v (SearchPage.filteredVehicles P vehicles filterContext "") <->
      In v vehicles
      /\ Vehicle.verificationStatus v = verified /\ Vehicle.isAvailable v = true
      /\ (SearchPage.city filterContext = ""
          \/ Vehicle.location v = SearchPage.city filterContext)).
Proof.
  rewrite <- matchesContext_spec.
  destruct (filteredVehicles_spec P vehicles filterContext searchQuery v) as [Hsound _].
  destruct (filteredVehicles_spec P vehicles filterContext "" v) as [Hsound0 Hcomplete0].
  split; [| split].
  - intros H. destruct (Hsound H) as (Hin & Hvis & Hm).
    apply visible_spec in Hvis. tauto.
  - intros H. destruct (Hsound0 H) as (Hin & Hvis & Hm).
    apply visible_spec in Hvis. tauto.
  - intros (Hin & Hver & Hav & Hm). apply Hcomplete0.
    split; [exact Hin |]. split; [| exact Hm]. apply visible_spec. now split.
Qed.

Example search_bogota :
  map Vehicle.id
    (SearchPage.filteredVehicles asciiPlatform Constants.MOCK_VEHICLES
       (HomePage.handleSearch HomePage.initialCity) "")
  = ["v1"; "v4"]
  /\ map Vehicle.id
       (SearchPage.filteredVehicles asciiPlatform Constants.MOCK_VEHICLES
          (HomePage.handleSearch HomePage.initialCity) "MAZ")
     = ["v4"]
  /\ map Vehicle.id
       (SearchPage.filteredVehicles asciiPlatform Constants.MOCK_VEHICLES
          (HomePage.handleSearch "") "202")
     = ["v1"; "v2"; "v3"; "v4"].
Proof. repeat split. Qed.

(** ** A published vehicle *)




(** ** The owner's page *)





Lemma myVehicles_toggled (id : string) (s : App.State) :
  OwnerWizard.myVehicles (App.vehicles (App.handleToggleAvailability id s))
  = map (fun v => if Vehicle.id v =? id
                  then Vehicle.with_isAvailable v (negb (Vehicle.isAvailable v))
                  else v)
        (OwnerWizard.myVehicles (App.vehicles s)).
Proof.
  unfold OwnerWizard.myVehicles. simpl.
  induction (App.vehicles s) as [| v vs IH]; [reflexivity |]. simpl.
  assert (E : Vehicle.ownerId
                (if Vehicle.id v =? id
                 then Vehicle.with_isAvailable v (negb (Vehicle.isAvailable v)) else v)
              = Vehicle.ownerId v) by (destruct (_ =? _); reflexivity).
  rewrite E. destruct (_ || _); simpl; now rewrite IH.
Qed.

(** X17. Pausing a vehicle from the owner's list never takes it off that
    list: after the toggle the list shows the same vehicles in the same
    order, the toggle of the same row is there again, and using it gives back
    the store as it was. *)
Theorem owner_toggle_twice (s : App.State) (p : OwnerWizard.Page) (i : nat)
    (w1 : App.State * OwnerWizard.Page) :
  OwnerWizard.step (OwnerWizard.ClickToggle i) (s, p) = Some w1 ->
  map Vehicle.id (OwnerWizard.myVehicles (App.vehicles (fst w1)))
  = map Vehicle.id (OwnerWizard.myVehicles (App.vehicles s))
  /\ OwnerWizard.step (OwnerWizard.ClickToggle i) w1 = Some (s, p).
Proof.
  unfold OwnerWizard.step.
  destruct (OwnerWizard.view p) eqn:Hview; [| discriminate].
  destruct (nth_error (OwnerWizard.myVehicles (App.vehicles s)) i) as [v |] eqn:Hi;
    [| discriminate].
  intros [= <-]. cbn [fst]. rewrite myVehicles_toggled. split.
  - rewrite map_map. apply map_ext. intros u. destruct (_ =? _); reflexivity.
  - rewrite Hview, nth_error_map, Hi. cbn [option_map].
    rewrite String.eqb_refl.
    change (Vehicle.id (Vehicle.with_isAvailable v (negb (Vehicle.isAvailable v))))
      with (Vehicle.id v).
    now rewrite handleToggleAvailability_involutive.
Qed.

Lemma owner_toggle_twice_scenario :
  OwnerWizard.run [OwnerWizard.ClickToggle 1; OwnerWizard.ClickToggle 1]
                  (App.init, OwnerWizard.initPage)
  = Some (App.init, OwnerWizard.initPage).
Proof.
  destruct (owner_toggle_twice App.init OwnerWizard.initPage 1 _ eq_refl) as [_ H].
  simpl OwnerWizard.run. exact H.
Defined.
